(** * Pokemon card portfolio: the ETL of [update_portfolio.py] and the report
      of [generate_summary.py], embedded as functions over in-memory tables.

    Conventions of the embedding.
    - A float64 cell that is not NaN is the rational it denotes ([Qc], the
      rationals in lowest terms, so that equal prices are equal terms); NaN,
      [None] and [pd.NA] are the missing cell, [None] of an [option].
      Comparison, maximum and the test against 0.0 are exact on these;
      additions are not: the sum of a column is what pandas returns for it,
      a parameter of the report.
      Infinite values are not represented.
    - Strings are ASCII text, and a file is named by its path as written:
      two spellings of one path are two names.
    - Among lookup rows, those without a card_id are kept as one key by the
      deduplication; the properties speak of rows that have one.
    - Directory listing ([Path.glob]) and file parsing ([json.load],
      [pd.read_csv], [pd.json_normalize] on nested objects) are given: a
      directory is the list of its parsed files in discovery order. *)

From Stdlib Require Import String Ascii List Bool Arith Lia.
From Stdlib Require Import Permutation Sorted QArith Qcanon.
Import ListNotations.
Close Scope Qc_scope.
Close Scope Q_scope.

Set Implicit Arguments.

(** ** Numbers *)

Module Float.

Definition is_zero (v : Qc) : bool := Qeq_bool v 0.
Definition leb (a b : Qc) : bool := Qle_bool a b.
Definition ltb (a b : Qc) : bool := negb (Qle_bool b a).

End Float.

(** ** Python strings *)

Module Str.

(** [str.isspace] on one ASCII character: TAB LF VT FF CR, the four
    separators FS GS RS US, and the space. *)
Definition isspace (c : ascii) : bool :=
  let n := nat_of_ascii c in
  ((9 <=? n) && (n <=? 13)) || ((28 <=? n) && (n <=? 32)).

Fixpoint lstrip (s : string) : string :=
  match s with
  | EmptyString => EmptyString
  | String c s' => if isspace c then lstrip s' else s
  end.

Fixpoint rstrip (s : string) : string :=
  match s with
  | EmptyString => EmptyString
  | String c s' =>
      match rstrip s' with
      | EmptyString => if isspace c then EmptyString else String c EmptyString
      | t => String c t
      end
  end.

(** [s.strip()] *)
Definition strip (s : string) : string := rstrip (lstrip s).

Fixpoint all_space (s : string) : bool :=
  match s with
  | EmptyString => true
  | String c s' => isspace c && all_space s'
  end.

Definition first_char (s : string) : option ascii :=
  match s with EmptyString => None | String c _ => Some c end.

Fixpoint last_char (s : string) : option ascii :=
  match s with
  | EmptyString => None
  | String c EmptyString => Some c
  | String _ s' => last_char s'
  end.

Definition not_space (o : option ascii) : Prop :=
  match o with None => True | Some c => isspace c = false end.

End Str.

(** ** The pandas operations the ETL uses *)

Module Pandas.

(** [s.fillna(d)] *)
Definition fillna {A : Type} (d : A) (s : list (option A)) : list A :=
  map (fun c => match c with Some v => v | None => d end) s.

(** [self.where(cond, other)]: keep [self] where [cond] holds, else take
    [other]; the three series share one index. *)
Fixpoint where_ {A : Type} (self : list A) (cond : list bool) (other : list A)
  : list A :=
  match self, cond, other with
  | x :: self', c :: cond', o :: other' =>
      (if c then x else o) :: where_ self' cond' other'
  | _, _, _ => []
  end.

(** The position of the first element that passes [p]. *)
Fixpoint position {A : Type} (p : A -> bool) (l : list A) : option nat :=
  match l with
  | [] => None
  | x :: l' => if p x then Some 0 else option_map S (position p l')
  end.

Section ByKey.
Variables (R K : Type).
Variable key : R -> K.
Variable key_eqb : K -> K -> bool.

(** [df.drop_duplicates(subset=[key], keep="first")]: a row stays when no
    earlier row has its key. *)
Fixpoint drop_duplicates_from (seen : list K) (rows : list R) : list R :=
  match rows with
  | [] => []
  | r :: rows' =>
      if existsb (key_eqb (key r)) seen
      then drop_duplicates_from seen rows'
      else r :: drop_duplicates_from (key r :: seen) rows'
  end.

Definition drop_duplicates (rows : list R) : list R :=
  drop_duplicates_from [] rows.
End ByKey.

Section ByValue.
Variable R : Type.
Variable value : R -> Qc.

(** [df.sort_values(col, ascending=False)] as the stable descending sort:
    rows of equal value keep their order.  (The sort pandas runs by default
    need not be stable on long frames; the properties below use only that
    the result is a descending permutation of the rows.) *)
Fixpoint insert_desc (x : R) (sorted : list R) : list R :=
  match sorted with
  | [] => [x]
  | y :: sorted' =>
      if Float.ltb (value x) (value y)
      then y :: insert_desc x sorted'
      else x :: sorted
  end.

Fixpoint sort_values_desc (rows : list R) : list R :=
  match rows with
  | [] => []
  | r :: rows' => insert_desc r (sort_values_desc rows')
  end.

(** Descending in [value]: each row is at least as high as all later rows. *)
Definition descending : list R -> Prop :=
  StronglySorted (fun a b => (value b <= value a)%Qc).
End ByValue.

End Pandas.


(** ** What a Python call does: it returns, or [sys.exit] ends it, or an
   exception leaves it; [W] is what the call can change. *)

Module Py.

Inductive exn :=
| KeyError (key : string)
| ValueError (msg : string).

Inductive outcome (A : Type) : Type :=
| Returned (a : A)
| Exited (status : nat)
| Raised (e : exn).
Arguments Returned {A} a.
Arguments Exited {A} status.
Arguments Raised {A} e.

Section Monad.
Variable W : Type.

Definition M (A : Type) : Type := W -> outcome A * W.

Definition ret {A} (a : A) : M A := fun w => (Returned a, w).

Definition bind {A B} (m : M A) (k : A -> M B) : M B :=
  fun w =>
    match m w with
    | (Returned a, w') => k a w'
    | (Exited n, w') => (Exited n, w')
    | (Raised e, w') => (Raised e, w')
    end.

(** [sys.exit(n)] *)
Definition sys_exit {A} (n : nat) : M A := fun w => (Exited n, w).

Definition raise {A} (e : exn) : M A := fun w => (Raised e, w).
End Monad.

Arguments ret {W A} a.
Arguments bind {W A B} m k.
Arguments sys_exit {W A} n.
Arguments raise {W A} e.

End Py.

Declare Scope py_scope.
Delimit Scope py_scope with py.
Notation "x <- m ;; k" := (Py.bind m (fun x => k))
(at level 61, m at next level, right associativity) : py_scope.
Notation "m ;; k" := (Py.bind m (fun _ => k))
(at level 61, right associativity) : py_scope.

(** ** update_portfolio.py *)

Module UpdatePortfolio.

Import Pandas.

(** *** Lookup documents *)

(** One member of a flattened JSON record: the key is absent, or it holds
    [null], or it holds a value. *)
Inductive json_field (A : Type) : Type :=
| NoKey
| JNull
| JValue (a : A).
Arguments NoKey {A}.
Arguments JNull {A}.
Arguments JValue {A} a.

(** A card of the [data] array, flattened with dot-joined keys; only the
    six keys the loader reads are kept. *)
Record CardJson := {
  j_id : json_field string;              (* "id" *)
  j_name : json_field string;            (* "name" *)
  j_set_id : json_field string;          (* "set.id" *)
  j_set_name : json_field string;        (* "set.name" *)
  j_holofoil_market : json_field Qc;     (* "tcgplayer.prices.holofoil.market" *)
  j_normal_market : json_field Qc        (* "tcgplayer.prices.normal.market" *)
}.

(** A file matched by [*.json]: [json.load] raised, or it gave an object
    whose ["data"] member is absent or null ([None]) or a list of cards. *)
Inductive LookupFile :=
| Unparseable
| Document (data : option (list CardJson)).

(** A row of the frame the loader returns; string cells may be missing. *)
Record LookupRecord := {
  lk_card_id : option string;
  lk_set_id : option string;
  lk_set_name : option string;
  lk_name : option string;
  lk_card_market_value : Qc
}.

Definition has_key {A} (f : json_field A) : bool :=
  match f with NoKey => false | _ => true end.

Definition cell_of {A} (f : json_field A) : option A :=
  match f with JValue a => Some a | _ => None end.

(** Column [f] of [pd.json_normalize(records)]: it exists when some record
    has the key, and then holds a missing cell for each record without a
    value. *)
Definition json_column {A} (f : CardJson -> json_field A)
    (records : list CardJson) : option (list (option A)) :=
  if existsb (fun r => has_key (f r)) records
  then Some (map (fun r => cell_of (f r)) records)
  else None.

(** Lines 37-46. *)
Definition card_market_value_column (records : list CardJson) : list Qc :=
  let zeros := map (fun _ => Q2Qc 0) records in
  let from_holo :=
    match json_column j_holofoil_market records with
    | Some holo => fillna (Q2Qc 0) holo
    | None => zeros
    end in
  match json_column j_normal_market records with
  | Some normal =>
      where_ from_holo
             (map (fun v => negb (Float.is_zero v)) from_holo)
             (fillna (Q2Qc 0) normal)
  | None => from_holo
  end.

(** Lines 53-55 for a string column: [pd.NA] in every row when absent. *)
Definition required_column (col : option (list (option string))) (n : nat)
  : list (option string) :=
  match col with
  | Some s => s
  | None => repeat None n
  end.

(** [df[required_cols]]: the rows of the five columns. *)
Fixpoint select_required (ids sids snames names : list (option string))
    (values : list Qc) : list LookupRecord :=
  match ids, sids, snames, names, values with
  | i :: ids', s :: sids', sn :: snames', n :: names', v :: values' =>
      {| lk_card_id := i; lk_set_id := s; lk_set_name := sn; lk_name := n;
         lk_card_market_value := v |}
      :: select_required ids' sids' snames' names' values'
  | _, _, _, _, _ => []
  end.

(** Lines 30-57: the frame appended for one document. *)
Definition lookup_frame (records : list CardJson) : list LookupRecord :=
  let n := length records in
  select_required
    (required_column (json_column j_id records) n)
    (required_column (json_column j_set_id records) n)
    (required_column (json_column j_set_name records) n)
    (required_column (json_column j_name records) n)
    (card_market_value_column records).

(** The body of the loop, lines 18-57; [None] is [continue]. *)
Definition frame_of_file (f : LookupFile) : option (list LookupRecord) :=
  match f with
  | Unparseable => None
  | Document data =>
      match data with
      | None | Some [] => None
      | Some records => Some (lookup_frame records)
      end
  end.

Fixpoint all_lookup_df (files : list LookupFile) : list (list LookupRecord) :=
  match files with
  | [] => []
  | f :: files' =>
      match frame_of_file f with
      | Some df => df :: all_lookup_df files'
      | None => all_lookup_df files'
      end
  end.

Definition option_string_eqb (a b : option string) : bool :=
  match a, b with
  | Some x, Some y => String.eqb x y
  | None, None => true
  | _, _ => false
  end.

Definition _load_lookup_data (lookup_dir : list LookupFile) : list LookupRecord :=
  match all_lookup_df lookup_dir with
  | [] => []
  | frames =>
      let lookup_df := concat frames in
      let lookup_df := sort_values_desc lk_card_market_value lookup_df in
      drop_duplicates lk_card_id option_string_eqb lookup_df
  end.


(** *** Inventory tables *)

(** A frame of string cells, column by column, in column order. *)
Definition Frame := list (string * list string).

Definition in_columns (c : string) (df : Frame) : bool :=
  existsb (fun col => String.eqb (fst col) c) df.

(** [df[c]] *)
Definition column (c : string) (df : Frame) : list string :=
  match find (fun col => String.eqb (fst col) c) df with
  | Some col => snd col
  | None => []
  end.

(** [df[c] = s]: replaces the column, or appends a new one. *)
Definition assign (c : string) (s : list string) (df : Frame) : Frame :=
  if in_columns c df
  then map (fun col => if String.eqb (fst col) c then (c, s) else col) df
  else df ++ [(c, s)].

(** The dict passed to [rename] at lines 93-103. *)
Definition inventory_renames : list (string * string) :=
  [ ("card_name", "card_name"); ("set_id", "set_id");
    ("card_number", "card_number"); ("binder_name", "binder_name");
    ("page_number", "page_number"); ("slot_number", "slot_number");
    ("number", "card_number"); ("name", "card_name") ]%string.

Fixpoint renamed (m : list (string * string)) (c : string) : string :=
  match m with
  | [] => c
  | (old, new) :: m' => if String.eqb old c then new else renamed m' c
  end.

(** [df.rename(columns=m)] *)
Definition rename_columns (m : list (string * string)) (df : Frame) : Frame :=
  map (fun col => (renamed m (fst col), snd col)) df.

Fixpoint unique_names (l : list string) : bool :=
  match l with
  | [] => true
  | c :: l' => negb (existsb (String.eqb c) l') && unique_names l'
  end.

(** A parsed CSV file: the header and the data lines, a cell being [None]
    where [read_csv] gives NaN.  No two columns come under one name once
    renamed: a table has [number] or [card_number], [name] or [card_name],
    not both. *)
Record InventoryCsv := {
  csv_header : list string;
  csv_lines : list (list (option string));
  csv_unambiguous :
    unique_names (map (renamed inventory_renames) csv_header) = true
}.

(** A file matched by [*.csv]: [read_csv] raised, or it gave a table. *)
Inductive InventoryFile :=
| Unreadable
| Csv (t : InventoryCsv).

Record InventoryRecord := {
  inv_card_id : string;
  inv_card_name : string;
  inv_set_id : string;
  inv_card_number : string;
  inv_binder_name : string;
  inv_page_number : string;
  inv_slot_number : string
}.

(** Column [j] of the data lines, after [fillna("")]. *)
Definition csv_series (t : InventoryCsv) (j : nat) : list string :=
  fillna EmptyString (map (fun line => nth j line None) (csv_lines t)).

(** [pd.read_csv(csv_file, dtype=str).fillna("")] *)
Definition read_csv_str (t : InventoryCsv) : Frame :=
  map (fun jh => (snd jh, csv_series t (fst jh)))
      (combine (seq 0 (length (csv_header t))) (csv_header t)).

Definition inventory_required : list string :=
  [ "card_name"; "set_id"; "card_number"; "binder_name"; "page_number";
    "slot_number" ]%string.

(** Lines 106-108, one turn of the loop. *)
Definition ensure_column (n : nat) (df : Frame) (c : string) : Frame :=
  if in_columns c df then df else assign c (repeat EmptyString n) df.

(** [s.str.strip()]; [astype(str)] leaves a column of strings as it is. *)
Definition str_strip (s : list string) : list string := map Str.strip s.

(** [a + b] on two series of strings, and [a + "lit"]. *)
Fixpoint series_add (a b : list string) : list string :=
  match a, b with
  | x :: a', y :: b' => String.append x y :: series_add a' b'
  | _, _ => []
  end.

Definition series_add_str (a : list string) (lit : string) : list string :=
  map (fun x => String.append x lit) a.

(** [df[cols]] at line 117, as rows. *)
Definition select_inventory (n : nat) (df : Frame) : list InventoryRecord :=
  map (fun i =>
         {| inv_card_id := nth i (column "card_id" df) EmptyString;
            inv_card_name := nth i (column "card_name" df) EmptyString;
            inv_set_id := nth i (column "set_id" df) EmptyString;
            inv_card_number := nth i (column "card_number" df) EmptyString;
            inv_binder_name := nth i (column "binder_name" df) EmptyString;
            inv_page_number := nth i (column "page_number" df) EmptyString;
            inv_slot_number := nth i (column "slot_number" df) EmptyString |})
      (seq 0 n).

(** Lines 87-117: the frame appended for one table. *)
Definition inventory_frame (t : InventoryCsv) : list InventoryRecord :=
  let n := length (csv_lines t) in
  let df := read_csv_str t in
  let df := rename_columns inventory_renames df in
  let df := fold_left (ensure_column n) inventory_required df in
  let df := assign "card_number" (str_strip (column "card_number" df)) df in
  let df := assign "set_id" (str_strip (column "set_id" df)) df in
  let df :=
    assign "card_id"
      (series_add (series_add_str (column "set_id" df) "-")
                  (column "card_number" df)) df in
  select_inventory n df.

Fixpoint all_inv (files : list InventoryFile) : list (list InventoryRecord) :=
  match files with
  | [] => []
  | Unreadable :: files' => all_inv files'
  | Csv t :: files' => inventory_frame t :: all_inv files'
  end.

Definition _load_inventory_data (inventory_dir : list InventoryFile)
  : list InventoryRecord :=
  match all_inv inventory_dir with
  | [] => []
  | frames => concat frames
  end.

(** *** The merge *)

Record PortfolioRecord := {
  pf_card_id : string;
  pf_card_name : string;
  pf_set_id : string;
  pf_card_number : string;
  pf_binder_name : string;
  pf_page_number : string;
  pf_slot_number : string;
  pf_set_name : string;
  pf_card_market_value : Qc;
  pf_index : string
}.

(** [lookup_df[["card_id", "set_name", "card_market_value"]]] *)
Record LookupSub := {
  sub_card_id : option string;
  sub_set_name : option string;
  sub_card_market_value : Qc
}.

Definition project_sub (r : LookupRecord) : LookupSub :=
  {| sub_card_id := lk_card_id r; sub_set_name := lk_set_name r;
     sub_card_market_value := lk_card_market_value r |}.

(** A row of [merged]: the inventory columns, then the two lookup columns,
    missing where the row found no match. *)
Record MergedRow := {
  m_inventory : InventoryRecord;
  m_set_name : option string;
  m_card_market_value : option Qc
}.

Definition matches (l : InventoryRecord) (r : LookupSub) : bool :=
  option_string_eqb (Some (inv_card_id l)) (sub_card_id r).

(** [pd.merge(left, right, on="card_id", how="left")]: the left rows in
    order, each once per right row of its key, or once with missing cells. *)
Definition merge_left (left : list InventoryRecord) (right : list LookupSub)
  : list MergedRow :=
  flat_map
    (fun l =>
       match filter (matches l) right with
       | [] => [ {| m_inventory := l; m_set_name := None;
                    m_card_market_value := None |} ]
       | found =>
           map (fun r => {| m_inventory := l; m_set_name := sub_set_name r;
                            m_card_market_value :=
                              Some (sub_card_market_value r) |}) found
       end)
    left.

Definition fill {A} (d : A) (c : option A) : A :=
  match c with Some v => v | None => d end.

(** [a + "-" + b + "-" + c] of line 188 for one row. *)
Definition location_index (binder page slot : string) : string :=
  String.append
    (String.append
       (String.append (String.append (Str.strip binder) "-") (Str.strip page))
       "-")
    (Str.strip slot).

(** Lines 178-195 on one row of [merged]: the two [fillna], the location
    columns (strings already, [astype(str).fillna("")] keeps them), the
    index, and the ten columns in order. *)
Definition final_row (m : MergedRow) : PortfolioRecord :=
  let i := m_inventory m in
  {| pf_card_id := inv_card_id i;
     pf_card_name := inv_card_name i;
     pf_set_id := inv_set_id i;
     pf_card_number := inv_card_number i;
     pf_binder_name := inv_binder_name i;
     pf_page_number := inv_page_number i;
     pf_slot_number := inv_slot_number i;
     pf_set_name := fill "NOT_FOUND"%string (m_set_name m);
     pf_card_market_value := fill (Q2Qc 0) (m_card_market_value m);
     pf_index :=
       location_index (inv_binder_name i) (inv_page_number i)
                      (inv_slot_number i) |}.

Definition final_cols : list string :=
  [ "card_id"; "card_name"; "set_id"; "card_number"; "binder_name";
    "page_number"; "slot_number"; "set_name"; "card_market_value";
    "index" ]%string.

(** What [to_csv(path, index=False)] writes: the header, then the rows. *)
Record CsvFile := {
  file_header : list string;
  file_rows : list PortfolioRecord
}.

(** The two streams and the files written, the latest first. *)
Record World := {
  stdout : list string;
  stderr : list string;
  disk : list (string * CsvFile)
}.

Definition print (s : string) : Py.M World unit :=
  fun w => (Py.Returned tt,
            {| stdout := stdout w ++ [s]; stderr := stderr w;
               disk := disk w |}).

Definition print_stderr (s : string) : Py.M World unit :=
  fun w => (Py.Returned tt,
            {| stdout := stdout w; stderr := stderr w ++ [s];
               disk := disk w |}).

(** [Path(path).parent.mkdir(parents=True, exist_ok=True)] then
    [df.to_csv(path, index=False)]; directories are not represented. *)
Definition to_csv (path : string) (header : list string)
    (rows : list PortfolioRecord) : Py.M World unit :=
  fun w => (Py.Returned tt,
            {| stdout := stdout w; stderr := stderr w;
               disk := (path, {| file_header := header; file_rows := rows |})
                         :: disk w |}).

Definition file_at (path : string) (w : World) : option CsvFile :=
  match find (fun f => String.eqb (fst f) path) (disk w) with
  | Some f => Some (snd f)
  | None => None
  end.

(** [df.empty] for a frame that has columns. *)
Definition empty {A} (df : list A) : bool :=
  match df with [] => true | _ => false end.

Definition update_portfolio (inventory_dir : list InventoryFile)
    (lookup_dir : list LookupFile) (output_file : string)
  : Py.M World unit :=
  let inventory_df := _load_inventory_data inventory_dir in
  let lookup_df := _load_lookup_data lookup_dir in
  if empty inventory_df then
    (print_stderr
       "Error: inventory is empty. Writing empty portfolio with headers." ;;
     to_csv output_file final_cols [])%py
  else
    let lookup_sub :=
      if negb (empty lookup_df) then map project_sub lookup_df else [] in
    let merged := merge_left inventory_df lookup_sub in
    let final_df := map final_row merged in
    (to_csv output_file final_cols final_df ;;
     print (String.append "Wrote portfolio to " output_file))%py.
End UpdatePortfolio.

(** ** generate_summary.py *)

Module GenerateSummary.

(** A cell of a text column as [read_csv] types it. *)
Inductive cell :=
| NaN
| Text (s : string)
| Number (q : Qc).

(** A row of the portfolio table; only the three columns the report reads
    are kept, and a cell of a column the header lacks is never read.  The
    value column is numeric (float64 or int64), with [None] for NaN; a file
    whose value column holds text is not one of these tables. *)
Record Row := {
  r_card_name : cell;
  r_card_id : cell;
  r_card_market_value : option Qc
}.

Record Table := {
  columns : list string;
  rows : list Row
}.

(** The file at [portfolio_file]: absent, or [read_csv] raises with a
    message, or it parses. *)
Inductive DiskFile :=
| NotFound
| ReadError (e : string)
| Parsed (df : Table).

(** A printed line; a formatted amount or cell is kept as the value. *)
Inductive line :=
| Plain (s : string)
| Amount (label : string) (v : option Qc) (* f"{label}{v:,.2f}", NaN is [None] *)
| Field (label : string) (c : cell).     (* f"{label}{c}" *)

Record Console := {
  stdout : list line;
  stderr : list line
}.

Definition print (l : line) : Py.M Console unit :=
  fun w => (Py.Returned tt, {| stdout := stdout w ++ [l]; stderr := stderr w |}).

Definition print_stderr (l : line) : Py.M Console unit :=
  fun w => (Py.Returned tt, {| stdout := stdout w; stderr := stderr w ++ [l] |}).

(** [df.empty]: some axis has length 0. *)
Definition empty (df : Table) : bool :=
  match rows df, columns df with
  | [], _ | _, [] => true
  | _, _ => false
  end.

Definition has_column (c : string) (df : Table) : bool :=
  existsb (String.eqb c) (columns df).

(** The exact sum of the cells that have a value: what [s.sum()] returns
    as long as no addition rounds or wraps around. *)
Fixpoint series_sum (s : list (option Qc)) : Qc :=
  match s with
  | [] => Q2Qc 0
  | Some v :: s' => (v + series_sum s')%Qc
  | None :: s' => series_sum s'
  end.

(** The scan behind [s.idxmax()]: the position of the first largest value
    from position [i] on, given the best seen before. *)
Fixpoint argmax_from (i : nat) (best : option (nat * Qc))
    (s : list (option Qc)) : option (nat * Qc) :=
  match s with
  | [] => best
  | c :: s' =>
      let best' :=
        match c, best with
        | Some v, Some (_, b) => if Float.ltb b v then Some (i, v) else best
        | Some v, None => Some (i, v)
        | None, _ => best
        end in
      argmax_from (S i) best' s'
  end.

(** [df.loc[s.idxmax()]].  With no value in the column there is no label:
    [idxmax] raises ValueError (pandas 3), or returns NaN and [df.loc] raises
    KeyError (earlier versions); either way the call raises.  The position
    the scan returns is always a row, so the inner [None] is never reached. *)
Definition most_valuable (df : Table) : Py.M Console Row :=
  match argmax_from 0 None (map r_card_market_value (rows df)) with
  | Some (i, _) =>
      match nth_error (rows df) i with
      | Some r => Py.ret r
      | None => Py.raise (Py.KeyError "idxmax")
      end
  | None => Py.raise (Py.ValueError "attempt to get argmax of an empty sequence")
  end.

(** [row[c]] on the row of a table with header [columns df]. *)
Definition getitem {A} (df : Table) (c : string) (v : A) : Py.M Console A :=
  if has_column c df then Py.ret v else Py.raise (Py.KeyError c).

Definition newline : string := String (ascii_of_nat 10) EmptyString.

(** ["-" * 40] *)
Definition rule : line :=
  Plain "----------------------------------------".

(** [column_sum] is [s.sum()] on the numeric column: the number pandas
    returns for the cells present, with the rounding of float64 or the
    wrap-around of int64 that its additions have. *)
Definition generate_summary (column_sum : list (option Qc) -> Qc)
    (portfolio_file : string) (on_disk : DiskFile)
  : Py.M Console unit :=
  match on_disk with
  | NotFound =>
      (print_stderr
         (Plain (String.append "Error: Portfolio file not found at '"
                   (String.append portfolio_file "'"))) ;;
       Py.sys_exit 1)%py
  | ReadError e =>
      (print_stderr
         (Plain (String.append "Error: Could not read file '"
                   (String.append portfolio_file
                      (String.append "': " e)))) ;;
       Py.sys_exit 1)%py
  | Parsed df =>
      if empty df then
        print (Plain (String.append "Portfolio '"
                        (String.append portfolio_file
                           "' contains no data. Nothing to summarize.")))
      else
        (total_portfolio_value <-
           (if has_column "card_market_value" df
            then Py.ret (column_sum (map r_card_market_value (rows df)))
            else
              (print_stderr
                 (Plain "Error: 'card_market_value' column not found. Cannot calculate total value.") ;;
               Py.ret (Q2Qc 0))) ;;
         most_valuable_card <-
           (if has_column "card_market_value" df && negb (empty df)
            then (r <- most_valuable df ;; Py.ret (Some r))
            else Py.ret None) ;;
         print rule ;;
         print (Plain (String.append "Portfolio Summary for: " portfolio_file)) ;;
         print rule ;;
         print (Amount "Total Portfolio Value: $" (Some total_portfolio_value)) ;;
         match most_valuable_card with
         | Some r =>
             (print (Plain (String.append newline "--- Most Valuable Card ---")) ;;
              name <- getitem df "card_name" (r_card_name r) ;;
              print (Field "Name:  " name) ;;
              id <- getitem df "card_id" (r_card_id r) ;;
              print (Field "ID:    " id) ;;
              value <- getitem df "card_market_value" (r_card_market_value r) ;;
              print (Amount "Value: $" value))
         | None =>
             print (Plain (String.append newline
                      "Could not determine the most valuable card."))
         end ;;
         print rule)%py
  end.

End GenerateSummary.

(** ** The specification's wording, to compare with the code *)

Module Spec.

Import UpdatePortfolio.

(** A price that is present and non-zero. *)
Definition present_nonzero (f : json_field Qc) : option Qc :=
  match f with
  | JValue v => if Float.is_zero v then None else Some v
  | _ => None
  end.

(** Holofoil-market first; else normal-market; else 0.0. *)
Definition card_market_value (r : CardJson) : Qc :=
  match present_nonzero (j_holofoil_market r) with
  | Some holo => holo
  | None =>
      match present_nonzero (j_normal_market r) with
      | Some normal => normal
      | None => Q2Qc 0
      end
  end.

(** The row a record becomes, whatever the other records of its document. *)
Definition lookup_row (r : CardJson) : LookupRecord :=
  {| lk_card_id := cell_of (j_id r);
     lk_set_id := cell_of (j_set_id r);
     lk_set_name := cell_of (j_set_name r);
     lk_name := cell_of (j_name r);
     lk_card_market_value := card_market_value r |}.

(** The records of the source documents, in discovery order. *)
Definition source_records (files : list LookupFile) : list CardJson :=
  flat_map (fun f => match f with
                     | Document (Some records) => records
                     | _ => []
                     end) files.

(** The card_id of a source record, when it has one. *)
Definition source_card_id (r : CardJson) : option string := cell_of (j_id r).

(** The cell of data line [i] in column [j] of a parsed table, the empty
    string where the cell is missing. *)
Definition source_cell (t : InventoryCsv) (j i : nat) : string :=
  fill EmptyString (nth j (nth i (csv_lines t) []) None).

(** The cell of line [i] under header [c]; empty when no column has it. *)
Definition source_field (t : InventoryCsv) (c : string) (i : nat) : string :=
  match Pandas.position (fun h => String.eqb h c) (csv_header t) with
  | Some j => source_cell t j i
  | None => EmptyString
  end.

(** The same for a column that has an alternate header. *)
Definition source_field_alt (t : InventoryCsv) (c alt : string) (i : nat)
  : string :=
  match Pandas.position (fun h => String.eqb h c) (csv_header t) with
  | Some j => source_cell t j i
  | None => source_field t alt i
  end.

(** The inventory row of data line [i]. *)
Definition inventory_row (t : InventoryCsv) (i : nat) : InventoryRecord :=
  let set_id := Str.strip (source_field t "set_id" i) in
  let card_number := Str.strip (source_field_alt t "card_number" "number" i) in
  {| inv_card_id := String.append (String.append set_id "-") card_number;
     inv_card_name := source_field_alt t "card_name" "name" i;
     inv_set_id := set_id;
     inv_card_number := card_number;
     inv_binder_name := source_field t "binder_name" i;
     inv_page_number := source_field t "page_number" i;
     inv_slot_number := source_field t "slot_number" i |}.

(** The lookup row found for a card_id, if any. *)
Definition lookup_for (lookup_df : list LookupRecord) (card_id : string)
  : option LookupRecord :=
  find (fun r => option_string_eqb (lk_card_id r) (Some card_id)) lookup_df.

(** The portfolio row of an inventory row: its own columns, the set name and
    value of its lookup row (or the sentinels), and the location key. *)
Definition portfolio_row (lookup_df : list LookupRecord) (l : InventoryRecord)
  : PortfolioRecord :=
  final_row
    {| m_inventory := l;
       m_set_name := match lookup_for lookup_df (inv_card_id l) with
                     | Some r => lk_set_name r
                     | None => None
                     end;
       m_card_market_value := option_map lk_card_market_value
                                (lookup_for lookup_df (inv_card_id l)) |}.

(** The inventory columns of a portfolio row. *)
Definition inventory_part (p : PortfolioRecord) : InventoryRecord :=
  {| inv_card_id := pf_card_id p; inv_card_name := pf_card_name p;
     inv_set_id := pf_set_id p; inv_card_number := pf_card_number p;
     inv_binder_name := pf_binder_name p; inv_page_number := pf_page_number p;
     inv_slot_number := pf_slot_number p |}.

(** What the join reads of the lookup row of a card_id. *)
Definition found (lookup_df : list LookupRecord) (card_id : string)
  : option (option string * Qc) :=
  option_map (fun r => (lk_set_name r, lk_card_market_value r))
             (lookup_for lookup_df card_id).

(** The diagnostic of the empty-inventory path. *)
Definition empty_inventory_message : string :=
  "Error: inventory is empty. Writing empty portfolio with headers.".

(** The file a run leaves at its output path. *)
Definition written (inventory_dir : list InventoryFile)
    (lookup_dir : list LookupFile) (output_file : string) (w : World)
  : option CsvFile :=
  file_at output_file
    (snd (update_portfolio inventory_dir lookup_dir output_file w)).

(** Source records that share a card_id and a value agree on the set name. *)
Definition ties_agree (lookup_dir : list LookupFile) : Prop :=
  forall r1 r2,
    In r1 (source_records lookup_dir) -> In r2 (source_records lookup_dir) ->
    source_card_id r1 = source_card_id r2 ->
    card_market_value r1 = card_market_value r2 ->
    cell_of (j_set_name r1) = cell_of (j_set_name r2).

End Spec.

Module SummarySpec.

Import GenerateSummary.

(** Position [i] holds [v], no cell holds more, and every earlier cell that
    has a value holds less: the first position of the maximum. *)
Definition first_max (s : list (option Qc)) (i : nat) (v : Qc) : Prop :=
  nth_error s i = Some (Some v)
  /\ (forall j v', nth_error s j = Some (Some v') -> (v' <= v)%Qc)
  /\ (forall j v', j < i -> nth_error s j = Some (Some v') -> (v' < v)%Qc).

(** No cell holds a value. *)
Definition all_missing (s : list (option Qc)) : Prop :=
  forall j v, nth_error s j <> Some (Some v).

Definition best_so_far (s : list (option Qc)) (best : option (nat * Qc)) : Prop :=
  match best with
  | Some (i, v) => first_max s i v
  | None => all_missing s
  end.



Definition no_data_message (portfolio_file : string) : line :=
  Plain (String.append "Portfolio '"
           (String.append portfolio_file
              "' contains no data. Nothing to summarize.")).


Definition title (portfolio_file : string) : line :=
  Plain (String.append "Portfolio Summary for: " portfolio_file).

Definition most_valuable_heading : line :=
  Plain (String.append newline "--- Most Valuable Card ---").








End SummarySpec.

(** ** Sample data *)

Module Sample.

Import UpdatePortfolio.

Definition price (cents : Z) : Qc := Q2Qc (cents # 100).

(** A card with a holofoil price of 120.50. *)
Definition charizard : CardJson :=
  {| j_id := JValue "base4-4"%string; j_name := JValue "Charizard"%string;
     j_set_id := JValue "base4"%string; j_set_name := JValue "Base Set 2"%string;
     j_holofoil_market := JValue (price 12050); j_normal_market := NoKey |}.

(** The same card from another source: no holofoil price, normal 30.00. *)
Definition charizard_normal : CardJson :=
  {| j_id := JValue "base4-4"%string; j_name := JValue "Charizard"%string;
     j_set_id := JValue "base4"%string; j_set_name := JValue "Base Set 2"%string;
     j_holofoil_market := NoKey; j_normal_market := JValue (price 3000) |}.

(** A card whose document has no [set.name] key. *)
Definition card_without_set_name : CardJson :=
  {| j_id := JValue "xy1-9"%string; j_name := JValue "Venusaur"%string;
     j_set_id := JValue "xy1"%string; j_set_name := NoKey;
     j_holofoil_market := JValue (price 500); j_normal_market := NoKey |}.

(** The card once more, at the same price, under another set name. *)
Definition charizard_reprint : CardJson :=
  {| j_id := JValue "base4-4"%string; j_name := JValue "Charizard"%string;
     j_set_id := JValue "base4"%string; j_set_name := JValue "Base Set II"%string;
     j_holofoil_market := JValue (price 12050); j_normal_market := NoKey |}.

Definition two_sources : list LookupFile :=
  [ Document (Some [charizard]); Document (Some [charizard_reprint]) ].

(** An inventory table with the alternate headers and untrimmed cells. *)
Definition binder_a : InventoryCsv :=
  {| csv_header := [ "name"; "set_id"; "number"; "binder_name"; "page_number";
                     "slot_number" ]%string;
     csv_lines :=
       [ [ Some "Charizard"; Some " base4"; Some "4 "; Some " Binder A ";
           Some "1"; None ];
         [ Some "Venusaur"; Some "xy1"; Some "9"; Some "Binder A";
           Some "2"; Some "7" ] ]%string;
     csv_unambiguous := eq_refl |}.

(** A table with a header and no data line. *)
Definition empty_binder : InventoryCsv :=
  {| csv_header := [ "card_name"; "set_id"; "card_number" ]%string;
     csv_lines := [];
     csv_unambiguous := eq_refl |}.

Definition initial_world : World :=
  {| stdout := []; stderr := []; disk := [] |}.

Import GenerateSummary.

Definition console0 : Console :=
  {| GenerateSummary.stdout := []; GenerateSummary.stderr := [] |}.

Definition summary_row (name id : string) (cents : Z) : Row :=
  {| r_card_name := Text name; r_card_id := Text id;
     r_card_market_value := Some (price cents) |}.

(** Three rows valued 10.00, 25.50 and 5.00. *)
Definition three_rows : list Row :=
  [ summary_row "Pikachu" "base1-58" 1000;
    summary_row "Charizard" "base4-4" 2550;
    summary_row "Rattata" "base1-61" 500 ]%string.


(** The same cards in a file that has no [card_name] column. *)
Definition no_name_column : Table :=
  {| columns := [ "card_id"; "card_market_value" ]%string;
     rows := map (fun r => {| r_card_name := NaN; r_card_id := r_card_id r;
                              r_card_market_value := r_card_market_value r |})
                 three_rows |}.


(** A file whose [card_market_value] cells are all empty. *)
Definition no_values : Table :=
  {| columns := [ "card_id"; "card_name"; "card_market_value" ]%string;
     rows := [ {| r_card_name := Text "Pikachu"; r_card_id := Text "base1-58";
                  r_card_market_value := None |} ] |}.

(** The same rows in a file that has no [card_market_value] column. *)
Definition no_value_column : Table :=
  {| columns := [ "card_id"; "card_name" ]%string;
     rows := three_rows |}.

End Sample.

(** ** The entry points *)

(** [main] and [test] of update_portfolio.py. *)
Module UpdatePortfolioEntry.

Import UpdatePortfolio.

(** What [Path(dir).glob("*.csv")] and [Path(dir).glob("*.json")] find under
    a directory path, parsed, in discovery order. *)
Record Directories := {
  csv_files : string -> list InventoryFile;
  json_files : string -> list LookupFile
}.

Definition main (dirs : Directories) : Py.M World unit :=
  let prod_inventory := "./card_inventory/"%string in
  let prod_lookup := "./card_set_lookup/"%string in
  let prod_output := "card_portfolio.csv"%string in
  update_portfolio (csv_files dirs prod_inventory) (json_files dirs prod_lookup)
                   prod_output.

Definition test (dirs : Directories) : Py.M World unit :=
  let test_inventory := "./card_inventory_test/"%string in
  let test_lookup := "./card_set_lookup_test/"%string in
  let test_output := "test_card_portfolio.csv"%string in
  update_portfolio (csv_files dirs test_inventory) (json_files dirs test_lookup)
                   test_output.

End UpdatePortfolioEntry.

(** [main] and [test] of generate_summary.py; [disk] gives the state of the
    file at each path. *)
Module GenerateSummaryEntry.

Import GenerateSummary.

Definition main (column_sum : list (option Qc) -> Qc)
    (disk : string -> DiskFile) : Py.M Console unit :=
  generate_summary column_sum "card_portfolio.csv"
                   (disk "card_portfolio.csv"%string).

Definition test (column_sum : list (option Qc) -> Qc)
    (disk : string -> DiskFile) : Py.M Console unit :=
  generate_summary column_sum "test_card_portfolio.csv"
                   (disk "test_card_portfolio.csv"%string).

End GenerateSummaryEntry.

(** ** pipeline.py *)

Module Pipeline.

Import UpdatePortfolio GenerateSummary.

(** The two streams, and the files written so far. *)
Record State := {
  console : Console;
  files : list (string * CsvFile)
}.

Definition print_stderr (s : string) : Py.M State unit :=
  fun st =>
    (Py.Returned tt,
     {| console :=
          {| GenerateSummary.stdout := GenerateSummary.stdout (console st);
             GenerateSummary.stderr :=
               GenerateSummary.stderr (console st) ++ [Plain s] |};
        files := files st |}).

(** A call of update_portfolio.py inside the pipeline: it sees the files
    written so far, and what it prints goes to the same two streams. *)
Definition run_etl {A} (m : Py.M World A) : Py.M State A :=
  fun st =>
    let '(o, w) :=
      m {| UpdatePortfolio.stdout := []; UpdatePortfolio.stderr := [];
           disk := files st |} in
    (o,
     {| console :=
          {| GenerateSummary.stdout :=
               GenerateSummary.stdout (console st)
               ++ map Plain (UpdatePortfolio.stdout w);
             GenerateSummary.stderr :=
               GenerateSummary.stderr (console st)
               ++ map Plain (UpdatePortfolio.stderr w) |};
        files := disk w |}).

Section Reading.

(** [pd.read_csv] on a file that [to_csv] wrote: the message of the
    exception it raises, or the table it returns. *)
Variable read_csv : CsvFile -> string + Table.

(** [s.sum()] on a numeric column, as in generate_summary.py. *)
Variable column_sum : list (option Qc) -> Qc.

(** The state of the file at [path] as generate_summary.py finds it. *)
Definition on_disk (fs : list (string * CsvFile)) (path : string) : DiskFile :=
  match find (fun f => String.eqb (fst f) path) fs with
  | None => NotFound
  | Some f =>
      match read_csv (snd f) with
      | inl e => ReadError e
      | inr df => Parsed df
      end
  end.

(** A call of generate_summary.py inside the pipeline. *)
Definition run_summary {A} (m : (string -> DiskFile) -> Py.M Console A)
  : Py.M State A :=
  fun st =>
    let '(o, c) := m (on_disk (files st)) (console st) in
    (o, {| console := c; files := files st |}).

Definition run_production_pipeline
    (dirs : UpdatePortfolioEntry.Directories) : Py.M State unit :=
  (print_stderr "--- Starting Production Pipeline ---" ;;
   print_stderr (String.append newline
                   "Step 1: Running ETL (update_portfolio.py)...") ;;
   run_etl (UpdatePortfolioEntry.main dirs) ;;
   print_stderr (String.append newline
                   "Step 2: Running Reporting (generate_summary.py)...") ;;
   run_summary (GenerateSummaryEntry.main column_sum) ;;
   print_stderr (String.append newline
                   "--- Production Pipeline Complete ---"))%py.

End Reading.

End Pipeline.

(** ** Further wording *)

Module MoreSpec.

Import UpdatePortfolio GenerateSummary.

(** A file of the lookup directory that the loader passes over. *)
Definition passed_over (f : LookupFile) : bool :=
  match f with
  | Unparseable | Document None | Document (Some []) => true
  | Document (Some (_ :: _)) => false
  end.

(** The number of data lines a file of the inventory directory brings. *)
Definition data_lines (f : InventoryFile) : nat :=
  match f with
  | Unreadable => 0
  | Csv t => length (csv_lines t)
  end.

(** The table has no column under header [c]. *)
Definition lacks (t : InventoryCsv) (c : string) : Prop :=
  Pandas.position (fun h => String.eqb h c) (csv_header t) = None.

(** The report up to the heading of the most valuable card. *)
Definition report_head (portfolio_file : string) (total : Qc) : list line :=
  [ rule; SummarySpec.title portfolio_file; rule;
    Amount "Total Portfolio Value: $" (Some total);
    SummarySpec.most_valuable_heading ].

(** What the pipeline narrates on the error stream. *)
Definition starting : line := Plain "--- Starting Production Pipeline ---".
Definition step_1 : line :=
  Plain (String.append newline "Step 1: Running ETL (update_portfolio.py)...").
Definition step_2 : line :=
  Plain (String.append newline
           "Step 2: Running Reporting (generate_summary.py)...").
Definition complete : line :=
  Plain (String.append newline "--- Production Pipeline Complete ---").

(** The file the ETL step of the pipeline writes. *)
Definition production_file (dirs : UpdatePortfolioEntry.Directories) : CsvFile :=
  {| file_header := final_cols;
     file_rows :=
       map (Spec.portfolio_row
              (_load_lookup_data
                 (UpdatePortfolioEntry.json_files dirs "./card_set_lookup/")))
           (_load_inventory_data
              (UpdatePortfolioEntry.csv_files dirs "./card_inventory/")) |}.

(** What the ETL step prints: on the output stream, on the error stream. *)
Definition production_prints (dirs : UpdatePortfolioEntry.Directories)
  : list string * list string :=
  if UpdatePortfolio.empty
       (_load_inventory_data
          (UpdatePortfolioEntry.csv_files dirs "./card_inventory/"))
  then ([], [Spec.empty_inventory_message])
  else ([String.append "Wrote portfolio to " "card_portfolio.csv"], []).

(** The two streams when the report step starts. *)
Definition before_report (dirs : UpdatePortfolioEntry.Directories)
    (c : Console) : Console :=
  {| GenerateSummary.stdout :=
       GenerateSummary.stdout c ++ map Plain (fst (production_prints dirs));
     GenerateSummary.stderr :=
       GenerateSummary.stderr c
       ++ [starting; step_1] ++ map Plain (snd (production_prints dirs))
       ++ [step_2] |}.

(** A file as the report step finds it. *)
Definition read_back (read_csv : CsvFile -> string + Table) (f : CsvFile)
  : DiskFile :=
  match read_csv f with
  | inl e => ReadError e
  | inr df => Parsed df
  end.

(** A state that differs only in the files it starts with. *)
Definition with_files (st : Pipeline.State) (fs : list (string * CsvFile))
  : Pipeline.State :=
  {| Pipeline.console := Pipeline.console st; Pipeline.files := fs |}.

End MoreSpec.

(** ** Further sample data *)

Module MoreSample.

Import UpdatePortfolio GenerateSummary.

(** Directories whose production inventory holds one unreadable file. *)
Definition no_inventory : UpdatePortfolioEntry.Directories :=
  {| UpdatePortfolioEntry.csv_files := fun _ => [Unreadable];
     UpdatePortfolioEntry.json_files := fun _ => Sample.two_sources |}.

(** Directories with the sample table and sources at every path. *)
Definition one_binder : UpdatePortfolioEntry.Directories :=
  {| UpdatePortfolioEntry.csv_files := fun _ => [Csv Sample.binder_a];
     UpdatePortfolioEntry.json_files := fun _ => Sample.two_sources |}.

(** A reader that keeps the header and types every row as text and value. *)
Definition sample_read_csv (f : CsvFile) : string + Table :=
  inr {| columns := file_header f;
         rows := map (fun p => {| r_card_name := Text (pf_card_name p);
                                  r_card_id := Text (pf_card_id p);
                                  r_card_market_value :=
                                    Some (pf_card_market_value p) |})
                     (file_rows f) |}.

Definition state0 : Pipeline.State :=
  {| Pipeline.console := Sample.console0; Pipeline.files := [] |}.

(** A table without [binder_name] and without either card-number header. *)
Definition bare_table : InventoryCsv :=
  {| csv_header := [ "card_name"; "set_id" ]%string;
     csv_lines := [ [ Some "Pikachu"; Some "base1 " ] ]%string;
     csv_unambiguous := eq_refl |}.

(** Two copies of one card in two slots. *)
Definition two_copies : InventoryCsv :=
  {| csv_header := [ "card_name"; "set_id"; "card_number"; "binder_name";
                     "page_number"; "slot_number" ]%string;
     csv_lines :=
       [ [ Some "Charizard"; Some "base4"; Some "4"; Some "Binder A";
           Some "1"; Some "1" ];
         [ Some "Charizard"; Some "base4"; Some "4"; Some "Binder B";
           Some "2"; Some "2" ] ]%string;
     csv_unambiguous := eq_refl |}.

(** The sample cards in a file that has no [card_id] column. *)
Definition no_id_column : Table :=
  {| columns := [ "card_name"; "card_market_value" ]%string;
     rows := Sample.three_rows |}.

End MoreSample.

(** * Properties *)

Module FloatFacts.

Import Float.

Lemma is_zero_true (v : Qc) : is_zero v = true <-> v = Q2Qc 0.
Proof.
  unfold is_zero. rewrite Qeq_bool_iff. split.
  - intros H. apply Qc_is_canon. exact H.
  - intros ->. reflexivity.
Qed.

Lemma is_zero_false (v : Qc) : is_zero v = false <-> v <> Q2Qc 0.
Proof.
  rewrite <- is_zero_true. destruct (is_zero v); split; congruence.
Qed.

Lemma leb_le (a b : Qc) : leb a b = true <-> (a <= b)%Qc.
Proof. unfold leb, Qcle. apply Qle_bool_iff. Qed.

Lemma ltb_lt (a b : Qc) : ltb a b = true <-> (a < b)%Qc.
Proof.
  unfold ltb. rewrite negb_true_iff. split.
  - intros H. apply Qcnot_le_lt. intros Hle.
    apply leb_le in Hle. unfold leb in Hle. congruence.
  - intros H. destruct (Qle_bool b a) eqn:E; [|reflexivity].
    apply (proj1 (leb_le b a)) in E. exfalso. exact (Qclt_not_le _ _ H E).
Qed.

Lemma ltb_ge (a b : Qc) : ltb a b = false <-> (b <= a)%Qc.
Proof. unfold ltb. rewrite negb_false_iff. apply (leb_le b a). Qed.

End FloatFacts.


Module StrFacts.

Import Str.

Lemma lstrip_trims s :
  exists l, s = String.append l (lstrip s)
            /\ all_space l = true
            /\ not_space (first_char (lstrip s)).
Proof.
  induction s as [|c s IH]; simpl.
  - exists EmptyString. repeat split.
  - destruct (isspace c) eqn:E.
    + destruct IH as (l & Hs & Hl & Hf).
      exists (String c l). simpl. rewrite E, <- Hs. repeat split; assumption.
    + exists EmptyString. simpl. repeat split. exact E.
Qed.

Lemma rstrip_trims s :
  exists r, s = String.append (rstrip s) r
            /\ all_space r = true
            /\ not_space (last_char (rstrip s)).
Proof.
  induction s as [|c s IH]; simpl.
  - exists EmptyString. repeat split.
  - destruct IH as (r & Hs & Hr & Hlast).
    destruct (rstrip s) as [|c1 t1] eqn:Ers.
    + simpl in Hs. subst r. destruct (isspace c) eqn:E.
      * exists (String c s). simpl. rewrite E. repeat split. exact Hr.
      * exists s. simpl. repeat split; assumption.
    + exists r. simpl. rewrite Hs at 1. repeat split; assumption.
Qed.

Lemma rstrip_keeps_first s :
  not_space (first_char s) -> not_space (first_char (rstrip s)).
Proof.
  destruct s as [|c s]; simpl; [trivial|].
  intros Hc. destruct (rstrip s); [now rewrite Hc | exact Hc].
Qed.

(** [strip] removes a run of whitespace at each end and nothing else, and
    what is left neither starts nor ends with whitespace. *)
Lemma strip_trims s :
  exists l r,
    s = String.append l (String.append (strip s) r)
    /\ all_space l = true /\ all_space r = true
    /\ not_space (first_char (strip s))
    /\ not_space (last_char (strip s)).
Proof.
  unfold strip.
  destruct (lstrip_trims s) as (l & Hs & Hl & Hf).
  destruct (rstrip_trims (lstrip s)) as (r & Hm & Hr & Hlast).
  exists l, r. rewrite <- Hm.
  repeat split; try assumption. now apply rstrip_keeps_first.
Qed.

Example strip_sample :
  strip (String (ascii_of_nat 9) " base4  ") = "base4"%string.
Proof. reflexivity. Qed.

End StrFacts.

Module PandasFacts.

Import Pandas.

Section DropDuplicates.
Variables (R K : Type).
Variable key : R -> K.
Variable key_eqb : K -> K -> bool.
Hypothesis key_eqb_eq : forall a b, key_eqb a b = true <-> a = b.

Let has_key (k : K) (r : R) : bool := key_eqb (key r) k.

Lemma key_eqb_sym a b : key_eqb a b = key_eqb b a.
Proof.
  destruct (key_eqb a b) eqn:E1, (key_eqb b a) eqn:E2; try reflexivity.
  - apply key_eqb_eq in E1. subst. rewrite <- E2. symmetry. now apply key_eqb_eq.
  - apply key_eqb_eq in E2. subst. rewrite <- E1. now apply key_eqb_eq.
Qed.

(** What survives of key [k]: nothing when the key was seen before, else
    the first row of that key. *)
Lemma drop_duplicates_from_key (rows : list R) : forall (seen : list K) (k : K),
  filter (has_key k) (drop_duplicates_from key key_eqb seen rows)
  = if existsb (key_eqb k) seen then []
    else match find (has_key k) rows with
         | Some r => [r]
         | None => []
         end.
Proof.
  unfold has_key.
  induction rows as [|r rows IH]; intros seen k; simpl.
  - now destruct (existsb (key_eqb k) seen).
  - destruct (existsb (key_eqb (key r)) seen) eqn:Eseen.
    + rewrite IH. destruct (existsb (key_eqb k) seen) eqn:Ek; [reflexivity|].
      destruct (key_eqb (key r) k) eqn:Erk; [|reflexivity].
      apply key_eqb_eq in Erk. subst k. congruence.
    + simpl. rewrite IH. simpl. rewrite (key_eqb_sym k (key r)).
      destruct (key_eqb (key r) k) eqn:Erk; simpl.
      * apply key_eqb_eq in Erk. subst k. now rewrite Eseen.
      * reflexivity.
Qed.

Lemma drop_duplicates_key (rows : list R) (k : K) :
  filter (has_key k) (drop_duplicates key key_eqb rows)
  = match find (has_key k) rows with
    | Some r => [r]
    | None => []
    end.
Proof. unfold drop_duplicates. now rewrite drop_duplicates_from_key. Qed.

Lemma find_key_some (rows : list R) (r0 : R) :
  In r0 rows -> exists r, find (has_key (key r0)) rows = Some r.
Proof.
  intros Hin. destruct (find (has_key (key r0)) rows) as [r|] eqn:E; [eauto|].
  exfalso. apply (find_none _ _ E) in Hin. unfold has_key in Hin.
  assert (key_eqb (key r0) (key r0) = true) by now apply key_eqb_eq.
  congruence.
Qed.

End DropDuplicates.

Section SortValues.
Variable R : Type.
Variable value : R -> Qc.

Lemma insert_desc_perm x l : Permutation (x :: l) (insert_desc value x l).
Proof.
  induction l as [|y l IH]; simpl; [apply Permutation_refl|].
  destruct (Float.ltb (value x) (value y)); [|apply Permutation_refl].
  eapply perm_trans; [apply perm_swap|]. now apply perm_skip.
Qed.

Lemma sort_values_desc_perm l : Permutation l (sort_values_desc value l).
Proof.
  induction l as [|x l IH]; simpl; [apply perm_nil|].
  eapply perm_trans; [apply perm_skip, IH | apply insert_desc_perm].
Qed.

Lemma insert_desc_descending x l :
  descending value l -> descending value (insert_desc value x l).
Proof.
  unfold descending. intros Hs. induction Hs as [|y l Hs IH Hy]; simpl.
  - constructor; constructor.
  - destruct (Float.ltb (value x) (value y)) eqn:E.
    + constructor; [exact IH|].
      apply (Permutation_Forall (insert_desc_perm x l)).
      constructor; [|exact Hy].
      apply FloatFacts.ltb_lt in E. now apply Qclt_le_weak.
    + apply FloatFacts.ltb_ge in E.
      constructor; [now constructor|].
      constructor; [exact E|].
      eapply Forall_impl; [|exact Hy]. intros z Hz. simpl in Hz.
      eapply Qcle_trans; eassumption.
Qed.

Lemma sort_values_desc_descending l : descending value (sort_values_desc value l).
Proof.
  induction l as [|x l IH]; simpl; [constructor|].
  now apply insert_desc_descending.
Qed.

(** In a descending list the first row that passes a test has the highest
    value among the rows that pass it. *)
Lemma find_descending_max (p : R -> bool) l r :
  descending value l -> find p l = Some r ->
  forall r', In r' l -> p r' = true -> (value r' <= value r)%Qc.
Proof.
  unfold descending. intros Hs. revert r.
  induction Hs as [|y l Hs IH Hy]; intros r Hfind r' Hin Hp; simpl in *.
  - contradiction.
  - destruct (p y) eqn:Ey.
    + injection Hfind as <-. destruct Hin as [<-|Hin]; [apply Qcle_refl|].
      rewrite Forall_forall in Hy. now apply Hy.
    + destruct Hin as [<-|Hin]; [congruence|]. now apply IH.
Qed.

End SortValues.

End PandasFacts.

Module LookupFacts.

Import Pandas UpdatePortfolio.

Lemma where_map {A B : Type} (a o : A -> B) (c : A -> bool) (l : list A) :
  where_ (map a l) (map c l) (map o l) = map (fun x => if c x then a x else o x) l.
Proof. induction l as [|x l IH]; simpl; [reflexivity | now rewrite IH]. Qed.

Lemma fillna_map {A B : Type} (d : B) (f : A -> option B) (l : list A) :
  fillna d (map f l) = map (fun x => fill d (f x)) l.
Proof. unfold fillna. rewrite map_map. reflexivity. Qed.

Lemma no_key_cell {A} (f : CardJson -> json_field A) (records : list CardJson) r :
  existsb (fun r => has_key (f r)) records = false ->
  In r records -> cell_of (f r) = None.
Proof.
  intros Hex Hin.
  assert (H : has_key (f r) = false).
  { destruct (has_key (f r)) eqn:E; [|reflexivity].
    rewrite <- Hex. symmetry. apply existsb_exists. now exists r. }
  destruct (f r); [reflexivity | discriminate | discriminate].
Qed.

Lemma required_column_map (f : CardJson -> json_field string) records :
  required_column (json_column f records) (length records)
  = map (fun r => cell_of (f r)) records.
Proof.
  unfold json_column.
  destruct (existsb _ records) eqn:E; simpl; [reflexivity|].
  assert (H : forall r, In r records -> cell_of (f r) = None)
    by (intros r; now apply no_key_cell).
  clear E. induction records as [|r l IH]; simpl; [reflexivity|].
  rewrite (H r) by now left. f_equal. apply IH. intros; apply H; now right.
Qed.

Lemma price_column_map (f : CardJson -> json_field Qc) records :
  match json_column f records with
  | Some s => fillna (Q2Qc 0) s
  | None => map (fun _ => Q2Qc 0) records
  end = map (fun r => fill (Q2Qc 0) (cell_of (f r))) records.
Proof.
  unfold json_column.
  destruct (existsb _ records) eqn:E; [apply fillna_map|].
  apply map_ext_in. intros r Hin. now rewrite (no_key_cell f records r E Hin).
Qed.

Lemma card_market_value_per_record r :
  (let h := fill (Q2Qc 0) (cell_of (j_holofoil_market r)) in
   if negb (Float.is_zero h) then h
   else fill (Q2Qc 0) (cell_of (j_normal_market r)))
  = Spec.card_market_value r.
Proof.
  unfold Spec.card_market_value, Spec.present_nonzero.
  assert (Hn : forall n, Float.is_zero n = true -> n = Q2Qc 0)
    by (intros n; apply FloatFacts.is_zero_true).
  destruct (j_holofoil_market r) as [| |h]; simpl;
    try (destruct (Float.is_zero h) eqn:Eh; simpl);
    try reflexivity;
    destruct (j_normal_market r) as [| |n]; simpl; try reflexivity;
    destruct (Float.is_zero n) eqn:En; try reflexivity; now apply Hn.
Qed.

Lemma card_market_value_column_map records :
  card_market_value_column records = map Spec.card_market_value records.
Proof.
  unfold card_market_value_column.
  rewrite (price_column_map j_holofoil_market).
  destruct (json_column j_normal_market records) as [normal|] eqn:E.
  - pose proof (price_column_map j_normal_market records) as Hn.
    rewrite E in Hn. rewrite Hn.
    rewrite map_map.
    rewrite (where_map (fun r => fill (Q2Qc 0) (cell_of (j_holofoil_market r)))
                       (fun r => fill (Q2Qc 0) (cell_of (j_normal_market r)))
                       (fun r => negb (Float.is_zero
                                   (fill (Q2Qc 0) (cell_of (j_holofoil_market r)))))).
    apply map_ext. intros r. apply card_market_value_per_record.
  - apply map_ext_in. intros r Hin.
    rewrite <- card_market_value_per_record. simpl.
    unfold json_column in E.
    destruct (existsb _ records) eqn:Ex; [discriminate|].
    rewrite (no_key_cell j_normal_market records r Ex Hin). simpl.
    destruct (Float.is_zero _) eqn:Ez; simpl; [|reflexivity].
    now apply FloatFacts.is_zero_true.
Qed.

Lemma select_required_map {A} (f1 f2 f3 f4 : A -> option string) (f5 : A -> Qc) l :
  select_required (map f1 l) (map f2 l) (map f3 l) (map f4 l) (map f5 l)
  = map (fun x => {| lk_card_id := f1 x; lk_set_id := f2 x; lk_set_name := f3 x;
                     lk_name := f4 x; lk_card_market_value := f5 x |}) l.
Proof. induction l as [|x l IH]; simpl; [reflexivity | now rewrite IH]. Qed.

(** The column-wise program of lines 30-57 is a row-wise map. *)
Lemma lookup_frame_rows records :
  lookup_frame records = map Spec.lookup_row records.
Proof.
  unfold lookup_frame.
  rewrite !required_column_map, card_market_value_column_map.
  apply select_required_map.
Qed.

(** C1. For every record of a loaded lookup document the derived
    card_market_value is the holofoil-market price when that is present and
    non-zero, else the normal-market price when that is present and non-zero,
    else 0.0. *)
Theorem C1_price_derivation (records : list CardJson) (i : nat) (r : CardJson) :
  nth_error records i = Some r ->
  exists row,
    frame_of_file (Document (Some records)) = Some (lookup_frame records)
    /\ nth_error (lookup_frame records) i = Some row
    /\ lk_card_market_value row = Spec.card_market_value r.
Proof.
  intros Hr. exists (Spec.lookup_row r). split; [|split].
  - destruct records; [destruct i; discriminate | reflexivity].
  - rewrite lookup_frame_rows. now apply map_nth_error.
  - reflexivity.
Qed.

Lemma C1_price_derivation_witness :
  nth_error [Sample.charizard_normal; Sample.charizard] 1 = Some Sample.charizard
  /\ exists row,
       frame_of_file (Document (Some [Sample.charizard_normal; Sample.charizard]))
       = Some (lookup_frame [Sample.charizard_normal; Sample.charizard])
       /\ nth_error (lookup_frame [Sample.charizard_normal; Sample.charizard]) 1
          = Some row
       /\ lk_card_market_value row = Spec.card_market_value Sample.charizard.
Proof.
  split; [reflexivity|].
  apply (C1_price_derivation [Sample.charizard_normal; Sample.charizard] 1).
  reflexivity.
Defined.

(** *** Deduplication *)

Lemma option_string_eqb_eq (a b : option string) :
  option_string_eqb a b = true <-> a = b.
Proof.
  destruct a as [x|], b as [y|]; simpl; try (split; congruence).
  rewrite String.eqb_eq. split; congruence.
Qed.

Lemma all_lookup_df_rows files :
  concat (all_lookup_df files) = map Spec.lookup_row (Spec.source_records files).
Proof.
  induction files as [|f files IH]; simpl; [reflexivity|].
  rewrite map_app, <- IH.
  destruct f as [|[[|r records]|]]; simpl; try reflexivity.
  now rewrite (lookup_frame_rows (r :: records)).
Qed.

(** The loader, both branches of line 59: the concatenated rows, sorted by
    value, one row kept per card_id. *)
Lemma load_lookup_data_rows files :
  _load_lookup_data files
  = drop_duplicates lk_card_id option_string_eqb
      (sort_values_desc lk_card_market_value
         (map Spec.lookup_row (Spec.source_records files))).
Proof.
  unfold _load_lookup_data. rewrite <- all_lookup_df_rows.
  now destruct (all_lookup_df files).
Qed.

(** The rows of the loaded table that carry key [k]: none, or the one row
    of the highest value among the source rows of that key. *)
Lemma load_lookup_data_key files (k : option string) :
  let source := map Spec.lookup_row (Spec.source_records files) in
  (forall r, In r source -> lk_card_id r <> k)
  /\ filter (fun r => option_string_eqb (lk_card_id r) k) (_load_lookup_data files) = []
  \/ exists row,
       filter (fun r => option_string_eqb (lk_card_id r) k) (_load_lookup_data files)
       = [row]
       /\ In row source /\ lk_card_id row = k
       /\ forall r, In r source -> lk_card_id r = k ->
                    (lk_card_market_value r <= lk_card_market_value row)%Qc.
Proof.
  intros source. rewrite load_lookup_data_rows. fold source.
  rewrite (PandasFacts.drop_duplicates_key lk_card_id option_string_eqb
             option_string_eqb_eq).
  set (sorted := sort_values_desc lk_card_market_value source).
  assert (Hperm : Permutation source sorted)
    by apply PandasFacts.sort_values_desc_perm.
  destruct (find (fun r => option_string_eqb (lk_card_id r) k) sorted)
    as [row|] eqn:Efind.
  - right. exists row. split; [reflexivity|].
    pose proof (find_some _ _ Efind) as [Hin Hk].
    apply option_string_eqb_eq in Hk.
    split; [|split].
    + eapply Permutation_in; [apply Permutation_sym, Hperm | exact Hin].
    + exact Hk.
    + intros r Hr Hrk.
      apply (PandasFacts.find_descending_max (value := lk_card_market_value)
               (fun r => option_string_eqb (lk_card_id r) k) (l := sorted) (r := row)).
      * apply PandasFacts.sort_values_desc_descending.
      * exact Efind.
      * eapply Permutation_in; eassumption.
      * now apply option_string_eqb_eq.
  - left. split; [|reflexivity].
    intros r Hr Hrk.
    assert (Hin : In r sorted) by (eapply Permutation_in; eassumption).
    apply (find_none _ _ Efind) in Hin.
    apply option_string_eqb_eq in Hrk. congruence.
Qed.

(** C2. For every card_id that appears in a source document, exactly one
    record of the returned table has that card_id, and its card_market_value
    is the maximum over all source records sharing that card_id. *)
Theorem C2_one_record_per_card_id_with_max_value
    (files : list LookupFile) (r0 : CardJson) (card_id : string) :
  In r0 (Spec.source_records files) ->
  Spec.source_card_id r0 = Some card_id ->
  exists row,
    filter (fun r => option_string_eqb (lk_card_id r) (Some card_id))
           (_load_lookup_data files) = [row]
    /\ (exists r, In r (Spec.source_records files)
                  /\ Spec.source_card_id r = Some card_id
                  /\ lk_card_market_value row = Spec.card_market_value r)
    /\ (forall r, In r (Spec.source_records files) ->
                  Spec.source_card_id r = Some card_id ->
                  (Spec.card_market_value r <= lk_card_market_value row)%Qc).
Proof.
  intros Hin Hid.
  destruct (load_lookup_data_key files (Some card_id)) as [[Hno _]|[row H]].
  - exfalso. apply (Hno (Spec.lookup_row r0)); [|exact Hid].
    now apply in_map.
  - destruct H as (Hfilter & Hsrc & Hk & Hmax).
    exists row. split; [exact Hfilter|]. split.
    + apply in_map_iff in Hsrc. destruct Hsrc as (r & <- & Hr).
      exists r. repeat split; assumption.
    + intros r Hr Hrk.
      apply (Hmax (Spec.lookup_row r)); [now apply in_map | exact Hrk].
Qed.

Lemma C2_one_record_per_card_id_with_max_value_witness :
  let files := [Document (Some [Sample.charizard_normal]); Unparseable;
                Document (Some [Sample.charizard])] in
  In Sample.charizard_normal (Spec.source_records files)
  /\ Spec.source_card_id Sample.charizard_normal = Some "base4-4"%string
  /\ exists row,
       filter (fun r => option_string_eqb (lk_card_id r) (Some "base4-4"%string))
              (_load_lookup_data files) = [row]
       /\ (exists r, In r (Spec.source_records files)
                     /\ Spec.source_card_id r = Some "base4-4"%string
                     /\ lk_card_market_value row = Spec.card_market_value r)
       /\ (forall r, In r (Spec.source_records files) ->
                     Spec.source_card_id r = Some "base4-4"%string ->
                     (Spec.card_market_value r <= lk_card_market_value row)%Qc).
Proof.
  intros files.
  assert (H1 : In Sample.charizard_normal (Spec.source_records files))
    by (simpl; auto).
  assert (H2 : Spec.source_card_id Sample.charizard_normal = Some "base4-4"%string)
    by reflexivity.
  split; [exact H1|]. split; [exact H2|].
  exact (C2_one_record_per_card_id_with_max_value files Sample.charizard_normal H1 H2).
Defined.

(** *** Missing columns *)

(** A document without [set.name]: the set name of its row is the missing
    cell, which is not the empty string. *)
Lemma C10_counterexample :
  json_column j_set_name [Sample.card_without_set_name] = None
  /\ map lk_set_name (lookup_frame [Sample.card_without_set_name]) = [None]
  /\ map lk_set_name (lookup_frame [Sample.card_without_set_name])
     <> [Some EmptyString].
Proof. repeat split. discriminate. Qed.

(** C10, amended. A document whose records lack one of the four string
    fields is loaded all the same, with the missing-value marker (not the
    empty string) in that field of every row; when both price fields are
    lacking, card_market_value is 0.0 in every row. *)
Theorem C10_missing_columns_are_synthesized (records : list CardJson) :
  records <> [] ->
  frame_of_file (Document (Some records)) = Some (lookup_frame records)
  /\ length (lookup_frame records) = length records
  /\ (json_column j_id records = None ->
      Forall (fun row => lk_card_id row = None) (lookup_frame records))
  /\ (json_column j_set_id records = None ->
      Forall (fun row => lk_set_id row = None) (lookup_frame records))
  /\ (json_column j_set_name records = None ->
      Forall (fun row => lk_set_name row = None) (lookup_frame records))
  /\ (json_column j_name records = None ->
      Forall (fun row => lk_name row = None) (lookup_frame records))
  /\ (json_column j_holofoil_market records = None ->
      json_column j_normal_market records = None ->
      Forall (fun row => lk_card_market_value row = Q2Qc 0) (lookup_frame records)).
Proof.
  intros Hne.
  assert (Hcol : forall A (f : CardJson -> json_field A),
             json_column f records = None ->
             forall r, In r records -> cell_of (f r) = None).
  { intros A f Hc r Hin. unfold json_column in Hc.
    destruct (existsb _ records) eqn:E; [discriminate|].
    now apply (no_key_cell f records). }
  split; [destruct records; [contradiction | reflexivity]|].
  rewrite lookup_frame_rows.
  split; [apply length_map|].
  repeat split; intros; rewrite Forall_map, Forall_forall; intros r Hin; simpl;
    try (now apply Hcol).
  unfold Spec.card_market_value, Spec.present_nonzero.
  pose proof (Hcol _ j_holofoil_market H r Hin) as Hh.
  pose proof (Hcol _ j_normal_market H0 r Hin) as Hn.
  destruct (j_holofoil_market r); try discriminate;
    destruct (j_normal_market r); try discriminate; reflexivity.
Qed.

Lemma C10_missing_columns_are_synthesized_witness :
  let records := [Sample.card_without_set_name] in
  records <> []
  /\ json_column j_set_name records = None
  /\ Forall (fun row => lk_set_name row = None) (lookup_frame records).
Proof.
  intros records.
  assert (Hne : records <> []) by discriminate.
  split; [exact Hne|]. split; [reflexivity|].
  apply (C10_missing_columns_are_synthesized Hne). reflexivity.
Defined.

End LookupFacts.

Module InventoryFacts.

Import Pandas UpdatePortfolio.

(** *** Frames *)

Lemma column_assign c c' s (df : Frame) :
  column c (assign c' s df) = if String.eqb c' c then s else column c df.
Proof.
  unfold assign, column, in_columns.
  destruct (existsb (fun col => String.eqb (fst col) c') df) eqn:Ein.
  - induction df as [|[n0 s0] df IH]; simpl in *; [discriminate|].
    destruct (String.eqb_spec n0 c') as [->|Hne]; simpl.
    + destruct (String.eqb_spec c' c) as [->|Hc]; [reflexivity|].
      destruct (existsb (fun col => String.eqb (fst col) c') df) eqn:E.
      * now apply IH.
      * clear IH Ein. induction df as [|[n1 s1] df IH]; simpl in *; [reflexivity|].
        apply orb_false_iff in E. destruct E as [E1 E2].
        rewrite E1. simpl. destruct (String.eqb n1 c); [reflexivity | now apply IH].
    + destruct (String.eqb_spec n0 c) as [->|Hc].
      * destruct (String.eqb_spec c' c) as [->|_]; [congruence | reflexivity].
      * now apply IH.
  - induction df as [|[n0 s0] df IH]; simpl in *.
    + now destruct (String.eqb c' c).
    + apply orb_false_iff in Ein. destruct Ein as [E1 E2].
      destruct (String.eqb_spec n0 c) as [->|Hc].
      * destruct (String.eqb_spec c' c) as [->|_]; [|reflexivity].
        rewrite String.eqb_refl in E1. discriminate.
      * now apply IH.
Qed.

Lemma in_columns_assign c c' s (df : Frame) :
  in_columns c (assign c' s df) = String.eqb c' c || in_columns c df.
Proof.
  unfold assign, in_columns.
  destruct (existsb (fun col => String.eqb (fst col) c') df) eqn:Ein.
  - induction df as [|[n0 s0] df IH]; simpl in *; [discriminate|].
    destruct (String.eqb_spec n0 c') as [->|Hne]; simpl.
    + destruct (String.eqb_spec c' c) as [->|Hc]; simpl; [reflexivity|].
      destruct (existsb (fun col => String.eqb (fst col) c') df) eqn:E.
      * rewrite IH by reflexivity.
        destruct (String.eqb_spec c' c); [contradiction | reflexivity].
      * clear IH Ein. induction df as [|[n1 s1] df IH]; simpl in *; [reflexivity|].
        apply orb_false_iff in E. destruct E as [E1 E2].
        rewrite E1. simpl. now rewrite IH.
    + rewrite IH by exact Ein.
      destruct (String.eqb n0 c), (String.eqb c' c); reflexivity.
  - rewrite existsb_app. simpl. rewrite orb_false_r. apply orb_comm.
Qed.

Lemma column_ensure n cs : forall (df : Frame) c,
  column c (fold_left (ensure_column n) cs df)
  = if in_columns c df then column c df
    else if existsb (fun c' => String.eqb c' c) cs then repeat EmptyString n
         else column c df.
Proof.
  induction cs as [|c' cs IH]; intros df c; simpl.
  - now destruct (in_columns c df).
  - rewrite IH. unfold ensure_column.
    destruct (in_columns c' df) eqn:Ec'.
    + destruct (in_columns c df) eqn:Ec; [reflexivity|].
      destruct (String.eqb_spec c' c) as [->|Hne]; [congruence | reflexivity].
    + rewrite in_columns_assign, column_assign.
      destruct (String.eqb_spec c' c) as [->|Hne]; simpl.
      * now rewrite Ec'.
      * reflexivity.
Qed.

(** *** Reading and renaming *)

Lemma column_indexed m (series : nat -> list string) c : forall l s,
  column c (rename_columns m
              (map (fun jh => (snd jh, series (fst jh)))
                   (combine (seq s (length l)) l)))
  = match position (fun h => String.eqb (renamed m h) c) l with
    | Some j => series (s + j)
    | None => []
    end.
Proof.
  unfold column, rename_columns.
  induction l as [|h l IH]; intros s; simpl; [reflexivity|].
  destruct (String.eqb (renamed m h) c); simpl.
  - now rewrite Nat.add_0_r.
  - rewrite IH. destruct (position _ l); simpl; [|reflexivity].
    now rewrite Nat.add_succ_r.
Qed.

Lemma in_columns_indexed m (series : nat -> list string) c : forall l s,
  in_columns c (rename_columns m
                  (map (fun jh => (snd jh, series (fst jh)))
                       (combine (seq s (length l)) l)))
  = match position (fun h => String.eqb (renamed m h) c) l with
    | Some _ => true
    | None => false
    end.
Proof.
  unfold in_columns, rename_columns.
  induction l as [|h l IH]; intros s; simpl; [reflexivity|].
  destruct (String.eqb (renamed m h) c); simpl; [reflexivity|].
  rewrite IH. now destruct (position _ l).
Qed.

Lemma position_ext {A} (p q : A -> bool) l :
  (forall x, p x = q x) -> position p l = position q l.
Proof.
  intros H. induction l as [|x l IH]; simpl; [reflexivity|].
  now rewrite H, IH.
Qed.

Lemma position_some {A} (p : A -> bool) l j :
  position p l = Some j -> exists x, In x l /\ p x = true.
Proof.
  revert j. induction l as [|x l IH]; intros j; simpl; [discriminate|].
  destruct (p x) eqn:E; [eauto|].
  destruct (position p l) as [j'|]; [|discriminate].
  intros _. destruct (IH j' eq_refl) as (y & Hy & Hp). eauto.
Qed.

(** Two tests that no two columns of the list pass: the first column that
    passes either is the column that passes the first, else the second. *)
Lemma position_orb {A} (p q : A -> bool) l :
  (forall x y, In x l -> In y l -> p x = true -> q y = true -> False) ->
  position (fun x => p x || q x) l
  = match position p l with
    | Some j => Some j
    | None => position q l
    end.
Proof.
  induction l as [|x l IH]; intros H; simpl; [reflexivity|].
  destruct (p x) eqn:Ep; simpl; [reflexivity|].
  destruct (q x) eqn:Eq; simpl.
  - destruct (position p l) as [j|] eqn:Epos; [|reflexivity].
    exfalso. destruct (position_some _ _ Epos) as (y & Hy & Hpy).
    apply (H y x); simpl; auto.
  - rewrite IH by (intros a b Ha Hb; apply H; simpl; auto).
    now destruct (position p l).
Qed.

Lemma unique_names_inj (f : string -> string) l :
  unique_names (map f l) = true ->
  forall x y, In x l -> In y l -> f x = f y -> x = y.
Proof.
  induction l as [|h l IH]; simpl; [contradiction|].
  intros H x y Hx Hy Hf.
  apply andb_true_iff in H. destruct H as [Hh Hl].
  apply negb_true_iff in Hh.
  assert (Hnot : forall z, In z l -> f h <> f z).
  { intros z Hz Heq.
    assert (existsb (String.eqb (f h)) (map f l) = true); [|congruence].
    apply existsb_exists. exists (f z). split; [now apply in_map|].
    now apply String.eqb_eq. }
  destruct Hx as [<-|Hx], Hy as [<-|Hy]; try reflexivity.
  - exfalso. now apply (Hnot y).
  - exfalso. apply (Hnot x); [assumption | congruence].
  - now apply IH.
Qed.

Ltac case_renamed h :=
  repeat match goal with
         | |- context [String.eqb ?a h] =>
             destruct (String.eqb_spec a h) as [<-|?]; [reflexivity|]
         end.

(** What the rename of lines 93-103 does to a header. *)
Lemma renamed_plain c h :
  In c ["set_id"; "binder_name"; "page_number"; "slot_number"]%string ->
  String.eqb (renamed inventory_renames h) c = String.eqb h c.
Proof.
  intros Hc. unfold renamed, inventory_renames. simpl in Hc.
  destruct Hc as [<-|[<-|[<-|[<-|[]]]]];
    case_renamed h; reflexivity.
Qed.

Lemma renamed_card_number h :
  String.eqb (renamed inventory_renames h) "card_number"
  = String.eqb h "card_number" || String.eqb h "number".
Proof.
  unfold renamed, inventory_renames.
  case_renamed h.
  destruct (String.eqb_spec h "card_number"); [congruence|].
  destruct (String.eqb_spec h "number"); [congruence|]. reflexivity.
Qed.

Lemma renamed_card_name h :
  String.eqb (renamed inventory_renames h) "card_name"
  = String.eqb h "card_name" || String.eqb h "name".
Proof.
  unfold renamed, inventory_renames.
  case_renamed h.
  destruct (String.eqb_spec h "card_name"); [congruence|].
  destruct (String.eqb_spec h "name"); [congruence|]. reflexivity.
Qed.

(** *** Series *)

Lemma nth_csv_series t j i :
  nth i (csv_series t j) EmptyString = Spec.source_cell t j i.
Proof.
  unfold csv_series, fillna, Spec.source_cell. rewrite map_map.
  set (g := fun line : list (option string) => fill EmptyString (nth j line None)).
  replace EmptyString with (g []) at 1 by (unfold g; now destruct j).
  apply (map_nth g).
Qed.

Lemma length_csv_series t j : length (csv_series t j) = length (csv_lines t).
Proof. unfold csv_series, fillna. now rewrite !length_map. Qed.

Lemma nth_str_strip a i :
  nth i (str_strip a) EmptyString = Str.strip (nth i a EmptyString).
Proof. unfold str_strip. apply (map_nth Str.strip a EmptyString). Qed.

Lemma nth_series_add_str lit : forall a i,
  i < length a ->
  nth i (series_add_str a lit) EmptyString
  = String.append (nth i a EmptyString) lit.
Proof.
  unfold series_add_str.
  induction a as [|x a IH]; intros [|i] Hi; simpl in *; try lia; try reflexivity.
  apply IH. lia.
Qed.

Lemma nth_series_add : forall a b i,
  i < length a -> i < length b ->
  nth i (series_add a b) EmptyString
  = String.append (nth i a EmptyString) (nth i b EmptyString).
Proof.
  induction a as [|x a IH]; intros [|y b] [|i] Ha Hb; simpl in *;
    try lia; try reflexivity.
  apply IH; lia.
Qed.

(** *** One table *)

Section OneTable.
Variable t : InventoryCsv.

Let n := length (csv_lines t).
Let df2 : Frame :=
  fold_left (ensure_column n) inventory_required
    (rename_columns inventory_renames (read_csv_str t)).

Lemma required_column_cells c :
  In c inventory_required ->
  column c df2
  = match position (fun h => String.eqb (renamed inventory_renames h) c)
                   (csv_header t) with
    | Some j => csv_series t j
    | None => repeat EmptyString n
    end.
Proof.
  intros Hc. unfold df2. rewrite column_ensure.
  unfold read_csv_str.
  rewrite (in_columns_indexed inventory_renames (csv_series t) c (csv_header t) 0).
  rewrite (column_indexed inventory_renames (csv_series t) c (csv_header t) 0).
  destruct (position _ (csv_header t)); [reflexivity|].
  replace (existsb (fun c' => String.eqb c' c) inventory_required) with true;
    [reflexivity|].
  symmetry. apply existsb_exists. exists c. split; [exact Hc|].
  apply String.eqb_refl.
Qed.

Lemma required_column_length c :
  In c inventory_required -> length (column c df2) = n.
Proof.
  intros Hc. rewrite (required_column_cells Hc).
  destruct (position _ _); [apply length_csv_series | apply repeat_length].
Qed.

Lemma required_column_nth c i :
  In c inventory_required ->
  nth i (column c df2) EmptyString
  = match position (fun h => String.eqb (renamed inventory_renames h) c)
                   (csv_header t) with
    | Some j => Spec.source_cell t j i
    | None => EmptyString
    end.
Proof.
  intros Hc. rewrite (required_column_cells Hc).
  destruct (position _ _); [apply nth_csv_series|].
  destruct (Nat.lt_ge_cases i n) as [Hi|Hi].
  - now apply nth_repeat_lt.
  - apply nth_overflow. now rewrite repeat_length.
Qed.

Lemma plain_column_nth c i :
  In c ["set_id"; "binder_name"; "page_number"; "slot_number"]%string ->
  nth i (column c df2) EmptyString = Spec.source_field t c i.
Proof.
  intros Hc. rewrite required_column_nth.
  - unfold Spec.source_field.
    now rewrite (position_ext _ (fun h => String.eqb h c) (csv_header t)
                   (fun h => @renamed_plain c h Hc)).
  - simpl in *. intuition.
Qed.

Lemma alternate_position c alt :
  c <> alt ->
  renamed inventory_renames c = renamed inventory_renames alt ->
  position (fun h => String.eqb h c || String.eqb h alt) (csv_header t)
  = match position (fun h => String.eqb h c) (csv_header t) with
    | Some j => Some j
    | None => position (fun h => String.eqb h alt) (csv_header t)
    end.
Proof.
  intros Hne Hren. apply position_orb.
  intros x y Hx Hy Ex Ey.
  apply String.eqb_eq in Ex. apply String.eqb_eq in Ey. subst x y.
  apply Hne.
  exact (@unique_names_inj _ _ (csv_unambiguous t) c alt Hx Hy Hren).
Qed.

Lemma card_number_nth i :
  nth i (column "card_number" df2) EmptyString
  = Spec.source_field_alt t "card_number" "number" i.
Proof.
  rewrite required_column_nth by (simpl; intuition).
  rewrite (position_ext _ _ (csv_header t) renamed_card_number).
  rewrite alternate_position by (discriminate || reflexivity).
  unfold Spec.source_field_alt, Spec.source_field.
  now destruct (position _ (csv_header t)).
Qed.

Lemma card_name_nth i :
  nth i (column "card_name" df2) EmptyString
  = Spec.source_field_alt t "card_name" "name" i.
Proof.
  rewrite required_column_nth by (simpl; intuition).
  rewrite (position_ext _ _ (csv_header t) renamed_card_name).
  rewrite alternate_position by (discriminate || reflexivity).
  unfold Spec.source_field_alt, Spec.source_field.
  now destruct (position _ (csv_header t)).
Qed.

(** Lines 87-117 give, line by line of the table, the row of the source
    cells. *)
Lemma inventory_frame_rows :
  inventory_frame t = map (Spec.inventory_row t) (seq 0 n).
Proof.
  unfold inventory_frame. fold n. fold df2.
  unfold select_inventory. apply map_ext_in. intros i Hi.
  apply in_seq in Hi.
  rewrite !column_assign. simpl String.eqb. cbv iota.
  rewrite nth_series_add, nth_series_add_str, !nth_str_strip.
  - rewrite card_name_nth, card_number_nth.
    rewrite !plain_column_nth by (simpl; intuition).
    reflexivity.
  - unfold str_strip. rewrite length_map, required_column_length; [lia|].
    simpl; intuition.
  - unfold series_add_str, str_strip.
    rewrite !length_map, required_column_length; [lia|]. simpl; intuition.
  - unfold str_strip. rewrite length_map, required_column_length; [lia|].
    simpl; intuition.
Qed.

End OneTable.

(** *** The directory *)

(** The parsed tables of a directory, in discovery order. *)
Lemma load_inventory_data_rows files :
  _load_inventory_data files
  = flat_map (fun f => match f with
                       | Unreadable => []
                       | Csv t => inventory_frame t
                       end) files.
Proof.
  unfold _load_inventory_data.
  assert (H : concat (all_inv files)
              = flat_map (fun f => match f with
                                   | Unreadable => []
                                   | Csv t => inventory_frame t
                                   end) files).
  { induction files as [|[|t] files IH]; simpl; [reflexivity | exact IH |].
    now rewrite IH. }
  rewrite <- H. now destruct (all_inv files).
Qed.

(** Every loaded row is the row of a data line of a parsed table. *)
Lemma loaded_row_source files row :
  In row (_load_inventory_data files) ->
  exists t i,
    In (Csv t) files /\ i < length (csv_lines t) /\ row = Spec.inventory_row t i.
Proof.
  rewrite load_inventory_data_rows. intros Hin.
  apply in_flat_map in Hin. destruct Hin as ([|t] & Hf & Hrow); [contradiction|].
  rewrite inventory_frame_rows in Hrow.
  apply in_map_iff in Hrow. destruct Hrow as (i & <- & Hi).
  apply in_seq in Hi. exists t, i. repeat split; [exact Hf | lia].
Qed.

(** C3. Every row of the loaded inventory table comes from a data line of a
    source table, and its card_id is the trimmed set_id of that line, a
    hyphen, and its trimmed card_number, the latter read under the header
    [card_number] or else [number] (and card_name under [card_name] or else
    [name]). *)
Theorem C3_card_id_derivation (files : list InventoryFile) (row : InventoryRecord) :
  In row (_load_inventory_data files) ->
  exists t i,
    In (Csv t) files /\ i < length (csv_lines t)
    /\ nth_error (inventory_frame t) i = Some row
    /\ inv_card_id row
       = String.append
           (String.append (Str.strip (Spec.source_field t "set_id" i)) "-")
           (Str.strip (Spec.source_field_alt t "card_number" "number" i))
    /\ inv_card_name row = Spec.source_field_alt t "card_name" "name" i.
Proof.
  rewrite load_inventory_data_rows. intros Hin.
  apply in_flat_map in Hin. destruct Hin as ([|t] & Hf & Hrow); [contradiction|].
  exists t.
  rewrite inventory_frame_rows in *.
  apply in_map_iff in Hrow. destruct Hrow as (i & <- & Hi).
  apply in_seq in Hi. exists i.
  split; [exact Hf|]. split; [lia|]. split; [|split; reflexivity].
  apply map_nth_error. rewrite nth_error_nth' with (d := 0).
  - now rewrite seq_nth by lia.
  - rewrite length_seq. lia.
Qed.

Lemma C3_card_id_derivation_witness :
  let files := [Unreadable; Csv Sample.binder_a] in
  let row := {| inv_card_id := "base4-4"; inv_card_name := "Charizard";
                inv_set_id := "base4"; inv_card_number := "4";
                inv_binder_name := " Binder A "; inv_page_number := "1";
                inv_slot_number := "" |}%string in
  In row (_load_inventory_data files)
  /\ exists t i,
       In (Csv t) files /\ i < length (csv_lines t)
       /\ nth_error (inventory_frame t) i = Some row
       /\ inv_card_id row
          = String.append
              (String.append (Str.strip (Spec.source_field t "set_id" i)) "-")
              (Str.strip (Spec.source_field_alt t "card_number" "number" i))
       /\ inv_card_name row = Spec.source_field_alt t "card_name" "name" i.
Proof.
  intros files row.
  assert (H : In row (_load_inventory_data files)) by (vm_compute; auto).
  split; [exact H|].
  exact (C3_card_id_derivation files row H).
Defined.

End InventoryFacts.

Module MergeFacts.

Import Pandas UpdatePortfolio.

Lemma find_filter {A} (p : A -> bool) l : find p l = hd_error (filter p l).
Proof.
  induction l as [|x l IH]; simpl; [reflexivity|].
  now destruct (p x).
Qed.

Lemma filter_map_comm {A B} (f : A -> B) (p : B -> bool) l :
  filter p (map f l) = map f (filter (fun x => p (f x)) l).
Proof.
  induction l as [|x l IH]; simpl; [reflexivity|].
  destruct (p (f x)); simpl; now rewrite IH.
Qed.

Lemma option_string_eqb_sym a b : option_string_eqb a b = option_string_eqb b a.
Proof.
  destruct a, b; simpl; try reflexivity. apply String.eqb_sym.
Qed.

(** The lookup rows that match an inventory row: at most one, the row
    [lookup_for] finds. *)
Lemma matches_loaded lookup_dir (l : InventoryRecord) :
  filter (matches l) (map project_sub (_load_lookup_data lookup_dir))
  = match Spec.lookup_for (_load_lookup_data lookup_dir) (inv_card_id l) with
    | Some r => [project_sub r]
    | None => []
    end.
Proof.
  rewrite filter_map_comm. unfold Spec.lookup_for. rewrite find_filter.
  rewrite (filter_ext (fun x => matches l (project_sub x))
             (fun r => option_string_eqb (lk_card_id r) (Some (inv_card_id l))))
    by (intros r; unfold matches; apply option_string_eqb_sym).
  destruct (LookupFacts.load_lookup_data_key lookup_dir (Some (inv_card_id l)))
    as [[_ ->]|(row & -> & _)]; reflexivity.
Qed.

(** The left join against the loaded lookup table, row by row. *)
Lemma merged_rows lookup_dir (inventory_df : list InventoryRecord) :
  let lookup_df := _load_lookup_data lookup_dir in
  map final_row
      (merge_left inventory_df
         (if negb (empty lookup_df) then map project_sub lookup_df else []))
  = map (Spec.portfolio_row lookup_df) inventory_df.
Proof.
  intros lookup_df.
  replace (if negb (empty lookup_df) then map project_sub lookup_df else [])
    with (map project_sub lookup_df) by now destruct lookup_df.
  unfold merge_left. rewrite flat_map_concat_map, concat_map, map_map.
  rewrite (map_ext _ (fun l => [Spec.portfolio_row lookup_df l])).
  - induction inventory_df as [|l inv IH]; simpl; [reflexivity | now rewrite IH].
  - intros l. unfold lookup_df. rewrite matches_loaded.
    unfold Spec.portfolio_row.
    now destruct (Spec.lookup_for (_load_lookup_data lookup_dir) (inv_card_id l)).
Qed.

(** The two paths of [update_portfolio]. *)
Lemma update_portfolio_empty inventory_dir lookup_dir output_file w :
  _load_inventory_data inventory_dir = [] ->
  update_portfolio inventory_dir lookup_dir output_file w
  = (Py.Returned tt,
     {| stdout := stdout w;
        stderr := stderr w ++ [Spec.empty_inventory_message];
        disk := (output_file, {| file_header := final_cols; file_rows := [] |})
                  :: disk w |}).
Proof. intros H. unfold update_portfolio. rewrite H. reflexivity. Qed.

Lemma update_portfolio_rows inventory_dir lookup_dir output_file w :
  _load_inventory_data inventory_dir <> [] ->
  update_portfolio inventory_dir lookup_dir output_file w
  = (Py.Returned tt,
     {| stdout := stdout w ++ [String.append "Wrote portfolio to " output_file];
        stderr := stderr w;
        disk := (output_file,
                 {| file_header := final_cols;
                    file_rows := map (Spec.portfolio_row (_load_lookup_data lookup_dir))
                                     (_load_inventory_data inventory_dir) |})
                  :: disk w |}).
Proof.
  intros H. unfold update_portfolio.
  destruct (_load_inventory_data inventory_dir) as [|l inv] eqn:E; [contradiction|].
  cbv zeta. rewrite merged_rows. reflexivity.
Qed.

Lemma file_at_written path f out err d :
  file_at path {| stdout := out; stderr := err; disk := (path, f) :: d |} = Some f.
Proof. unfold file_at. simpl. now rewrite String.eqb_refl. Qed.

(** C4. For a non-empty inventory the written table has one row per
    inventory row, in order and with the inventory columns unchanged, and a
    row whose card_id no lookup row carries has set_name "NOT_FOUND" and
    card_market_value 0.0. *)
Theorem C4_merge_preserves_inventory_rows
    (inventory_dir : list InventoryFile) (lookup_dir : list LookupFile)
    (output_file : string) (w : World) :
  _load_inventory_data inventory_dir <> [] ->
  exists file,
    Spec.written inventory_dir lookup_dir output_file w = Some file
    /\ length (file_rows file) = length (_load_inventory_data inventory_dir)
    /\ map Spec.inventory_part (file_rows file)
       = _load_inventory_data inventory_dir
    /\ forall row,
         In row (file_rows file) ->
         (forall r, In r (_load_lookup_data lookup_dir) ->
                    lk_card_id r <> Some (pf_card_id row)) ->
         pf_set_name row = "NOT_FOUND"%string
         /\ pf_card_market_value row = Q2Qc 0.
Proof.
  intros Hne. unfold Spec.written.
  rewrite (update_portfolio_rows _ lookup_dir output_file w Hne).
  simpl snd. rewrite file_at_written.
  eexists. split; [reflexivity|]. simpl file_rows.
  split; [apply length_map|]. split.
  - rewrite map_map. rewrite <- (map_id (_load_inventory_data inventory_dir)) at 2.
    apply map_ext. now intros [].
  - intros row Hrow Hno.
    apply in_map_iff in Hrow. destruct Hrow as (l & <- & _).
    unfold Spec.portfolio_row in *. simpl in *.
    destruct (Spec.lookup_for (_load_lookup_data lookup_dir) (inv_card_id l))
      as [r|] eqn:E; [|split; reflexivity].
    exfalso. unfold Spec.lookup_for in E.
    apply find_some in E. destruct E as [Hin Hk].
    apply LookupFacts.option_string_eqb_eq in Hk. exact (Hno r Hin Hk).
Qed.

Lemma C4_merge_preserves_inventory_rows_witness :
  let inventory_dir := [Csv Sample.binder_a] in
  let lookup_dir := [Document (Some [Sample.charizard])] in
  _load_inventory_data inventory_dir <> []
  /\ exists file,
       Spec.written inventory_dir lookup_dir "portfolio.csv" Sample.initial_world
       = Some file
       /\ length (file_rows file) = length (_load_inventory_data inventory_dir)
       /\ map Spec.inventory_part (file_rows file)
          = _load_inventory_data inventory_dir
       /\ forall row,
            In row (file_rows file) ->
            (forall r, In r (_load_lookup_data lookup_dir) ->
                       lk_card_id r <> Some (pf_card_id row)) ->
            pf_set_name row = "NOT_FOUND"%string
            /\ pf_card_market_value row = Q2Qc 0.
Proof.
  intros inventory_dir lookup_dir.
  assert (Hne : _load_inventory_data inventory_dir <> [])
    by (vm_compute; discriminate).
  split; [exact Hne|].
  exact (C4_merge_preserves_inventory_rows inventory_dir lookup_dir
           "portfolio.csv" Sample.initial_world Hne).
Defined.

(** C5. In every row of the written table, index is the trimmed
    binder_name, page_number and slot_number joined by hyphens in that
    order; the three are the strings of the row's source line, the empty
    string standing for a missing cell or column. *)
Theorem C5_index_derivation
    (inventory_dir : list InventoryFile) (lookup_dir : list LookupFile)
    (output_file : string) (w : World) (file : CsvFile) (row : PortfolioRecord) :
  Spec.written inventory_dir lookup_dir output_file w = Some file ->
  In row (file_rows file) ->
  pf_index row
  = String.append
      (String.append
         (String.append
            (String.append (Str.strip (pf_binder_name row)) "-")
            (Str.strip (pf_page_number row)))
         "-")
      (Str.strip (pf_slot_number row))
  /\ exists t i,
       In (Csv t) inventory_dir /\ i < length (csv_lines t)
       /\ pf_binder_name row = Spec.source_field t "binder_name" i
       /\ pf_page_number row = Spec.source_field t "page_number" i
       /\ pf_slot_number row = Spec.source_field t "slot_number" i.
Proof.
  unfold Spec.written. intros Hfile Hrow.
  destruct (_load_inventory_data inventory_dir) as [|l0 inv] eqn:E.
  - rewrite (update_portfolio_empty _ lookup_dir output_file w E) in Hfile.
    simpl snd in Hfile. rewrite file_at_written in Hfile.
    injection Hfile as <-. contradiction.
  - assert (Hne : _load_inventory_data inventory_dir <> []) by congruence.
    rewrite (update_portfolio_rows _ lookup_dir output_file w Hne) in Hfile.
    simpl snd in Hfile. rewrite file_at_written in Hfile.
    injection Hfile as <-. simpl in Hrow.
    apply in_map_iff in Hrow. destruct Hrow as (l & <- & Hl).
    split; [reflexivity|].
    destruct (InventoryFacts.loaded_row_source inventory_dir l Hl)
      as (t & i & Ht & Hi & ->).
    exists t, i. repeat split; assumption.
Qed.

Lemma C5_index_derivation_witness :
  let inventory_dir := [Csv Sample.binder_a] in
  let file :=
    {| file_header := final_cols;
       file_rows := map (Spec.portfolio_row (_load_lookup_data []))
                        (_load_inventory_data inventory_dir) |} in
  let row := Spec.portfolio_row [] (Spec.inventory_row Sample.binder_a 0) in
  Spec.written inventory_dir [] "portfolio.csv" Sample.initial_world = Some file
  /\ In row (file_rows file)
  /\ pf_index row
     = String.append
         (String.append
            (String.append
               (String.append (Str.strip (pf_binder_name row)) "-")
               (Str.strip (pf_page_number row)))
            "-")
         (Str.strip (pf_slot_number row))
  /\ exists t i,
       In (Csv t) inventory_dir /\ i < length (csv_lines t)
       /\ pf_binder_name row = Spec.source_field t "binder_name" i
       /\ pf_page_number row = Spec.source_field t "page_number" i
       /\ pf_slot_number row = Spec.source_field t "slot_number" i.
Proof.
  intros inventory_dir file row.
  assert (H1 : Spec.written inventory_dir [] "portfolio.csv" Sample.initial_world
               = Some file) by reflexivity.
  assert (H2 : In row (file_rows file)) by (left; reflexivity).
  split; [exact H1|]. split; [exact H2|].
  exact (@C5_index_derivation inventory_dir [] "portfolio.csv"
           Sample.initial_world file row H1 H2).
Defined.

Example index_of_first_line :
  pf_index (Spec.portfolio_row [] (Spec.inventory_row Sample.binder_a 0))
  = "Binder A-1-"%string.
Proof. reflexivity. Qed.

(** C6. When the loaded inventory is empty, whatever the lookup directory
    holds, [update_portfolio] returns normally, leaves at the output path a
    file with the ten-column header and no rows, and adds one diagnostic to
    the error stream and nothing to the output stream. *)
Theorem C6_empty_inventory
    (inventory_dir : list InventoryFile) (lookup_dir : list LookupFile)
    (output_file : string) (w : World) :
  _load_inventory_data inventory_dir = [] ->
  let result := update_portfolio inventory_dir lookup_dir output_file w in
  fst result = Py.Returned tt
  /\ file_at output_file (snd result)
     = Some {| file_header := final_cols; file_rows := [] |}
  /\ length final_cols = 10
  /\ stderr (snd result) = stderr w ++ [Spec.empty_inventory_message]
  /\ stdout (snd result) = stdout w.
Proof.
  intros Hempty result. unfold result.
  rewrite (update_portfolio_empty _ lookup_dir output_file w Hempty).
  simpl. rewrite file_at_written. repeat split.
Qed.

Lemma C6_empty_inventory_witness :
  let inventory_dir := [Unreadable; Csv Sample.empty_binder] in
  let result :=
    update_portfolio inventory_dir Sample.two_sources "portfolio.csv"
                     Sample.initial_world in
  _load_inventory_data inventory_dir = []
  /\ fst result = Py.Returned tt
  /\ file_at "portfolio.csv" (snd result)
     = Some {| file_header := final_cols; file_rows := [] |}
  /\ length final_cols = 10
  /\ stderr (snd result) = [Spec.empty_inventory_message]
  /\ stdout (snd result) = [].
Proof.
  intros inventory_dir result.
  assert (H : _load_inventory_data inventory_dir = []) by reflexivity.
  split; [exact H|].
  exact (C6_empty_inventory inventory_dir Sample.two_sources "portfolio.csv"
           Sample.initial_world H).
Defined.

(** A matched card whose document had no [set.name]: the missing cell of
    the lookup row becomes the sentinel, not the empty string. *)
Example missing_set_name_reads_not_found :
  map (fun row => (pf_card_id row, pf_set_name row))
      (map (Spec.portfolio_row
              (_load_lookup_data [Document (Some [Sample.card_without_set_name])]))
           (_load_inventory_data [Csv Sample.binder_a]))
  = [ ("base4-4", "NOT_FOUND"); ("xy1-9", "NOT_FOUND") ]%string
  /\ map lk_card_id
         (_load_lookup_data [Document (Some [Sample.card_without_set_name])])
     = [ Some "xy1-9"%string ].
Proof. split; reflexivity. Qed.

(** *** Discovery order *)

(** Two documents give one card at one price under two set names: the set
    name written depends on which document comes first. *)
Lemma C9_counterexample :
  Permutation Sample.two_sources (rev Sample.two_sources)
  /\ exists file file',
       Spec.written [Csv Sample.binder_a] Sample.two_sources "portfolio.csv"
                    Sample.initial_world = Some file
       /\ Spec.written [Csv Sample.binder_a] (rev Sample.two_sources)
                       "portfolio.csv" Sample.initial_world = Some file'
       /\ map pf_set_name (file_rows file) = ["Base Set 2"; "NOT_FOUND"]%string
       /\ map pf_set_name (file_rows file') = ["Base Set II"; "NOT_FOUND"]%string
       /\ ~ Permutation (file_rows file) (file_rows file').
Proof.
  split; [apply Permutation_rev|].
  eexists. eexists.
  split; [reflexivity|]. split; [reflexivity|].
  split; [reflexivity|]. split; [reflexivity|].
  intros Hperm.
  apply (Permutation_map pf_set_name) in Hperm.
  apply (Permutation_in "Base Set 2"%string) in Hperm; [|now left].
  simpl in Hperm. destruct Hperm as [H|[H|[]]]; discriminate H.
Qed.

Lemma source_records_perm lookup_dir lookup_dir' :
  Permutation lookup_dir lookup_dir' ->
  Permutation (Spec.source_records lookup_dir) (Spec.source_records lookup_dir').
Proof. intros H. unfold Spec.source_records. now apply Permutation_flat_map. Qed.

Lemma load_inventory_data_perm inventory_dir inventory_dir' :
  Permutation inventory_dir inventory_dir' ->
  Permutation (_load_inventory_data inventory_dir)
              (_load_inventory_data inventory_dir').
Proof.
  intros H. rewrite !InventoryFacts.load_inventory_data_rows.
  now apply Permutation_flat_map.
Qed.

Lemma found_loaded lookup_dir card_id :
  let source := map Spec.lookup_row (Spec.source_records lookup_dir) in
  (forall r, In r source -> lk_card_id r <> Some card_id)
  /\ Spec.found (_load_lookup_data lookup_dir) card_id = None
  \/ exists row,
       Spec.found (_load_lookup_data lookup_dir) card_id
       = Some (lk_set_name row, lk_card_market_value row)
       /\ In row source /\ lk_card_id row = Some card_id
       /\ forall r, In r source -> lk_card_id r = Some card_id ->
                    (lk_card_market_value r <= lk_card_market_value row)%Qc.
Proof.
  intros source. unfold Spec.found, Spec.lookup_for. rewrite find_filter.
  destruct (LookupFacts.load_lookup_data_key lookup_dir (Some card_id))
    as [[Hno ->]|(row & -> & H)].
  - left. split; [exact Hno | reflexivity].
  - right. exists row. split; [reflexivity | exact H].
Qed.

Lemma found_perm lookup_dir lookup_dir' card_id :
  Permutation lookup_dir lookup_dir' ->
  Spec.ties_agree lookup_dir ->
  Spec.found (_load_lookup_data lookup_dir) card_id
  = Spec.found (_load_lookup_data lookup_dir') card_id.
Proof.
  intros Hperm Hties.
  assert (Hsrc : Permutation (map Spec.lookup_row (Spec.source_records lookup_dir))
                   (map Spec.lookup_row (Spec.source_records lookup_dir')))
    by now apply Permutation_map, source_records_perm.
  destruct (found_loaded lookup_dir card_id) as [[Hno ->]|(r & -> & Hr & Hk & Hmax)];
    destruct (found_loaded lookup_dir' card_id)
      as [[Hno' ->]|(r' & -> & Hr' & Hk' & Hmax')].
  - reflexivity.
  - exfalso. apply (Hno r'); [|exact Hk'].
    eapply Permutation_in; [apply Permutation_sym, Hsrc | exact Hr'].
  - exfalso. apply (Hno' r); [|exact Hk].
    eapply Permutation_in; [exact Hsrc | exact Hr].
  - assert (Hr'src : In r' (map Spec.lookup_row (Spec.source_records lookup_dir)))
      by (eapply Permutation_in; [apply Permutation_sym, Hsrc | exact Hr']).
    assert (Hv : lk_card_market_value r = lk_card_market_value r').
    { apply Qcle_antisym.
      - apply Hmax'; [eapply Permutation_in; [exact Hsrc | exact Hr] | exact Hk].
      - now apply Hmax. }
    apply in_map_iff in Hr. destruct Hr as (c & <- & Hc).
    apply in_map_iff in Hr'src. destruct Hr'src as (c' & <- & Hc').
    simpl in *. f_equal. f_equal; [|exact Hv].
    apply Hties; try assumption. unfold Spec.source_card_id. congruence.
Qed.

(** Whatever the ties, the value found for a card_id does not depend on the
    order of the documents. *)
Lemma found_value_perm lookup_dir lookup_dir' card_id :
  Permutation lookup_dir lookup_dir' ->
  option_map snd (Spec.found (_load_lookup_data lookup_dir) card_id)
  = option_map snd (Spec.found (_load_lookup_data lookup_dir') card_id).
Proof.
  intros Hperm.
  assert (Hsrc : Permutation (map Spec.lookup_row (Spec.source_records lookup_dir))
                   (map Spec.lookup_row (Spec.source_records lookup_dir')))
    by now apply Permutation_map, source_records_perm.
  destruct (found_loaded lookup_dir card_id) as [[Hno ->]|(r & -> & Hr & Hk & Hmax)];
    destruct (found_loaded lookup_dir' card_id)
      as [[Hno' ->]|(r' & -> & Hr' & Hk' & Hmax')]; simpl.
  - reflexivity.
  - exfalso. apply (Hno r'); [|exact Hk'].
    eapply Permutation_in; [apply Permutation_sym, Hsrc | exact Hr'].
  - exfalso. apply (Hno' r); [|exact Hk].
    eapply Permutation_in; [exact Hsrc | exact Hr].
  - f_equal. apply Qcle_antisym.
    + apply Hmax'; [eapply Permutation_in; [exact Hsrc | exact Hr] | exact Hk].
    + apply Hmax; [|exact Hk'].
      eapply Permutation_in; [apply Permutation_sym, Hsrc | exact Hr'].
Qed.

Lemma portfolio_row_found lookup_df lookup_df' l :
  Spec.found lookup_df (inv_card_id l) = Spec.found lookup_df' (inv_card_id l) ->
  Spec.portfolio_row lookup_df l = Spec.portfolio_row lookup_df' l.
Proof.
  unfold Spec.found, Spec.portfolio_row. intros H.
  destruct (Spec.lookup_for lookup_df (inv_card_id l)) as [r|],
           (Spec.lookup_for lookup_df' (inv_card_id l)) as [r'|];
    simpl in *; try discriminate; [|reflexivity].
  injection H as -> ->. reflexivity.
Qed.

(** C9, amended. When lookup records that share a card_id and tie on
    card_market_value also agree on set_name, a run over the same files
    discovered in another order writes the same header and the same rows up
    to their order. *)
Theorem C9_discovery_order_independence
    (inventory_dir inventory_dir' : list InventoryFile)
    (lookup_dir lookup_dir' : list LookupFile) (output_file : string) (w : World) :
  Permutation inventory_dir inventory_dir' ->
  Permutation lookup_dir lookup_dir' ->
  Spec.ties_agree lookup_dir ->
  exists file file',
    Spec.written inventory_dir lookup_dir output_file w = Some file
    /\ Spec.written inventory_dir' lookup_dir' output_file w = Some file'
    /\ file_header file = file_header file'
    /\ Permutation (file_rows file) (file_rows file').
Proof.
  intros Hinv Hlk Hties. unfold Spec.written.
  pose proof (load_inventory_data_perm Hinv) as Hrows.
  destruct (_load_inventory_data inventory_dir) as [|l inv] eqn:E.
  - apply Permutation_nil in Hrows.
    rewrite (update_portfolio_empty _ lookup_dir output_file w E).
    rewrite (update_portfolio_empty _ lookup_dir' output_file w Hrows).
    simpl snd. rewrite !file_at_written.
    eexists. eexists. repeat split. apply perm_nil.
  - assert (Hne : _load_inventory_data inventory_dir <> []) by congruence.
    assert (Hne' : _load_inventory_data inventory_dir' <> []).
    { intros H'. rewrite H' in Hrows.
      apply Permutation_sym, Permutation_nil in Hrows. discriminate. }
    rewrite (update_portfolio_rows _ lookup_dir output_file w Hne).
    rewrite (update_portfolio_rows _ lookup_dir' output_file w Hne').
    simpl snd. rewrite !file_at_written.
    eexists. eexists. split; [reflexivity|]. split; [reflexivity|].
    split; [reflexivity|]. simpl file_rows. rewrite E.
    rewrite (map_ext (Spec.portfolio_row (_load_lookup_data lookup_dir))
                     (Spec.portfolio_row (_load_lookup_data lookup_dir'))).
    + now apply Permutation_map.
    + intros r. apply portfolio_row_found. now apply found_perm.
Qed.

Lemma C9_discovery_order_independence_witness :
  let inventory_dir := [Unreadable; Csv Sample.binder_a] in
  let lookup_dir := [Document (Some [Sample.charizard_normal]);
                     Document (Some [Sample.charizard])] in
  Permutation inventory_dir (rev inventory_dir)
  /\ Permutation lookup_dir (rev lookup_dir)
  /\ Spec.ties_agree lookup_dir
  /\ exists file file',
       Spec.written inventory_dir lookup_dir "portfolio.csv" Sample.initial_world
       = Some file
       /\ Spec.written (rev inventory_dir) (rev lookup_dir) "portfolio.csv"
                       Sample.initial_world = Some file'
       /\ file_header file = file_header file'
       /\ Permutation (file_rows file) (file_rows file').
Proof.
  intros inventory_dir lookup_dir.
  assert (H1 : Permutation inventory_dir (rev inventory_dir))
    by apply Permutation_rev.
  assert (H2 : Permutation lookup_dir (rev lookup_dir)) by apply Permutation_rev.
  assert (H3 : Spec.ties_agree lookup_dir).
  { intros r1 r2 Hr1 Hr2 _ Hv. simpl in Hr1, Hr2.
    destruct Hr1 as [<-|[<-|[]]], Hr2 as [<-|[<-|[]]]; reflexivity. }
  split; [exact H1|]. split; [exact H2|]. split; [exact H3|].
  exact (C9_discovery_order_independence "portfolio.csv" Sample.initial_world
           H1 H2 H3).
Defined.

End MergeFacts.

Module SummaryFacts.

Import GenerateSummary SummarySpec.

(** *** The scan for the maximum *)

Lemma nth_error_snoc_old {A} (l : list A) (x : A) j :
  j < length l -> nth_error (l ++ [x]) j = nth_error l j.
Proof. intros H. now apply nth_error_app1. Qed.

Lemma nth_error_snoc_some {A} (l : list A) (x y : A) j :
  nth_error (l ++ [x]) j = Some y ->
  (j < length l /\ nth_error l j = Some y) \/ (j = length l /\ y = x).
Proof.
  intros H. destruct (Nat.lt_ge_cases j (length l)) as [Hlt|Hge].
  - left. split; [exact Hlt|]. now rewrite nth_error_app1 in H.
  - right. rewrite nth_error_app2 in H by exact Hge.
    destruct (j - length l) as [|k] eqn:E; simpl in H.
    + injection H as <-. split; [lia | reflexivity].
    + destruct k; discriminate.
Qed.

Lemma best_so_far_step (pre : list (option Qc)) (c : option Qc) best :
  best_so_far pre best ->
  best_so_far (pre ++ [c])
    match c, best with
    | Some v, Some (_, b) => if Float.ltb b v then Some (length pre, v) else best
    | Some v, None => Some (length pre, v)
    | None, _ => best
    end.
Proof.
  intros Hbest.
  assert (Hlast : forall v, nth_error (pre ++ [Some v]) (length pre) = Some (Some v)).
  { intros v. rewrite nth_error_app2 by lia. now rewrite Nat.sub_diag. }
  destruct c as [v|]; destruct best as [[bi bv]|]; simpl in *.
  - destruct Hbest as (Hat & Hmax & Hfirst).
    assert (Hbi : bi < length pre) by (apply nth_error_Some; congruence).
    destruct (Float.ltb bv v) eqn:E.
    + apply FloatFacts.ltb_lt in E. split; [apply Hlast|]. split.
      * intros j v' Hj. apply nth_error_snoc_some in Hj.
        destruct Hj as [[_ Hj]|[_ Hj]].
        -- apply Qclt_le_weak. eapply Qcle_lt_trans; [eapply Hmax; exact Hj | exact E].
        -- injection Hj as ->. apply Qcle_refl.
      * intros j v' Hlt Hj. rewrite nth_error_snoc_old in Hj by exact Hlt.
        eapply Qcle_lt_trans; [eapply Hmax; exact Hj | exact E].
    + apply FloatFacts.ltb_ge in E. split; [|split].
      * now rewrite nth_error_snoc_old.
      * intros j v' Hj. apply nth_error_snoc_some in Hj.
        destruct Hj as [[_ Hj]|[_ Hj]]; [now apply (Hmax j)|].
        injection Hj as ->. exact E.
      * intros j v' Hlt Hj. rewrite nth_error_snoc_old in Hj by lia.
        now apply (Hfirst j).
  - split; [apply Hlast|]. split.
    + intros j v' Hj. apply nth_error_snoc_some in Hj.
      destruct Hj as [[_ Hj]|[_ Hj]]; [now apply Hbest in Hj|].
      injection Hj as ->. apply Qcle_refl.
    + intros j v' Hlt Hj. rewrite nth_error_snoc_old in Hj by exact Hlt.
      now apply Hbest in Hj.
  - destruct Hbest as (Hat & Hmax & Hfirst).
    assert (Hbi : bi < length pre) by (apply nth_error_Some; congruence).
    split; [|split].
    + now rewrite nth_error_snoc_old.
    + intros j v' Hj. apply nth_error_snoc_some in Hj.
      destruct Hj as [[_ Hj]|[_ Hj]]; [now apply (Hmax j) | discriminate].
    + intros j v' Hlt Hj. rewrite nth_error_snoc_old in Hj by lia.
      now apply (Hfirst j).
  - intros j v Hj. apply nth_error_snoc_some in Hj.
    destruct Hj as [[_ Hj]|[_ Hj]]; [now apply Hbest in Hj | discriminate].
Qed.

Lemma argmax_from_best (s : list (option Qc)) : forall pre best,
  best_so_far pre best ->
  best_so_far (pre ++ s) (argmax_from (length pre) best s).
Proof.
  induction s as [|c s IH]; intros pre best Hbest; simpl.
  - now rewrite app_nil_r.
  - replace (pre ++ c :: s) with ((pre ++ [c]) ++ s)
      by now rewrite <- app_assoc.
    replace (S (length pre)) with (length (pre ++ [c]))
      by (rewrite length_app; simpl; lia).
    apply IH. now apply best_so_far_step.
Qed.

(** The scan finds the first position of the maximum, or no value at all. *)
Lemma argmax_best (s : list (option Qc)) :
  best_so_far s (argmax_from 0 None s).
Proof.
  apply (argmax_from_best s [] None). intros j v. now destruct j.
Qed.

(** *** The paths of [generate_summary] *)



Lemma summary_no_data cs path df w :
  empty df = true ->
  generate_summary cs path (Parsed df) w
  = (Py.Returned tt,
     {| stdout := stdout w ++ [no_data_message path]; stderr := stderr w |}).
Proof. intros H. unfold generate_summary. now rewrite H. Qed.



(** A file that parses never ends in [sys.exit]. *)
Lemma summary_parsed_no_exit cs path df w n :
  fst (generate_summary cs path (Parsed df) w) <> Py.Exited n.
Proof.
  unfold generate_summary, most_valuable, getitem.
  destruct (empty df); [discriminate|].
  destruct (has_column "card_market_value" df); simpl;
    [|unfold Py.bind, print, print_stderr, Py.ret; simpl; discriminate].
  destruct (argmax_from 0 None (map r_card_market_value (rows df))) as [[i v]|];
    [|unfold Py.bind, print, print_stderr, Py.ret, Py.raise; simpl; discriminate].
  destruct (nth_error (rows df) i);
    [|unfold Py.bind, print, print_stderr, Py.ret, Py.raise; simpl; discriminate].
  destruct (has_column "card_name" df), (has_column "card_id" df);
    unfold Py.bind, print, print_stderr, Py.ret, Py.raise; simpl; discriminate.
Qed.







(** *** The report *)

Lemma first_max_unique s i v i' v' :
  first_max s i v -> first_max s i' v' -> i = i' /\ v = v'.
Proof.
  intros (Hat & Hmax & Hfirst) (Hat' & Hmax' & Hfirst').
  assert (Hv : v = v').
  { apply Qcle_antisym; [now apply (Hmax' i) | now apply (Hmax i')]. }
  split; [|exact Hv]. subst v'.
  destruct (Nat.lt_trichotomy i i') as [H|[H|H]]; [|exact H|].
  - exfalso. apply (Qclt_not_le v v); [now apply (Hfirst' i) | apply Qcle_refl].
  - exfalso. apply (Qclt_not_le v v); [now apply (Hfirst i') | apply Qcle_refl].
Qed.

Lemma series_sum_values (l : list Qc) :
  series_sum (map Some l) = fold_right Qcplus (Q2Qc 0) l.
Proof. induction l as [|v l IH]; simpl; [reflexivity | now rewrite IH]. Qed.


(** A column without any value: [idxmax] raises before anything is printed. *)
Example summary_without_values_raises :
  let result :=
    generate_summary series_sum "portfolio.csv" (Parsed Sample.no_values)
                     Sample.console0 in
  (exists e, fst result = Py.Raised e) /\ stdout (snd result) = [].
Proof. split; [eexists|]; reflexivity. Qed.



(** Three rows valued 10.00, 25.50 and 5.00, sums that no addition rounds:
    the total is 40.50 and the card reported is the second. *)
Example summary_of_three_cards :
  first_max (map r_card_market_value Sample.three_rows) 1 (Sample.price 2550)
  /\ series_sum (map r_card_market_value Sample.three_rows) = Sample.price 4050.
Proof.
  split.
  - pose proof (argmax_best (map r_card_market_value Sample.three_rows)) as H.
    exact H.
  - apply Qc_is_canon. reflexivity.
Qed.

End SummaryFacts.

(** * Further properties *)

Module MoreLookupFacts.

Import Pandas UpdatePortfolio.

Lemma passed_over_no_frame f :
  MoreSpec.passed_over f = true <-> frame_of_file f = None.
Proof.
  destruct f as [|[[|r records]|]]; simpl; split; congruence.
Qed.

Lemma all_lookup_df_passed_over before f after :
  MoreSpec.passed_over f = true ->
  all_lookup_df (before ++ f :: after) = all_lookup_df (before ++ after).
Proof.
  intros Hf. apply passed_over_no_frame in Hf.
  induction before as [|g before IH]; simpl.
  - now rewrite Hf.
  - now rewrite IH.
Qed.

(** X1. A file that cannot be parsed, or whose [data] is absent, null or
    empty, changes nothing: the table loaded is the one loaded without it. *)
Theorem X1_bad_lookup_file_is_passed_over
    (before after : list LookupFile) (f : LookupFile) :
  MoreSpec.passed_over f = true ->
  _load_lookup_data (before ++ f :: after) = _load_lookup_data (before ++ after).
Proof.
  intros Hf. unfold _load_lookup_data.
  now rewrite (@all_lookup_df_passed_over before f after Hf).
Qed.

Lemma X1_bad_lookup_file_is_passed_over_witness :
  MoreSpec.passed_over Unparseable = true
  /\ _load_lookup_data
       ([Document (Some [Sample.charizard])] ++ Unparseable
          :: [Document (Some [Sample.charizard_normal])])
     = _load_lookup_data
         ([Document (Some [Sample.charizard])]
            ++ [Document (Some [Sample.charizard_normal])]).
Proof.
  split; [reflexivity|].
  apply (@X1_bad_lookup_file_is_passed_over
           [Document (Some [Sample.charizard])]
           [Document (Some [Sample.charizard_normal])] Unparseable).
  reflexivity.
Defined.

Lemma drop_duplicates_from_incl {R K} (key : R -> K) key_eqb rows :
  forall seen r, In r (drop_duplicates_from key key_eqb seen rows) -> In r rows.
Proof.
  induction rows as [|x rows IH]; intros seen r; simpl; [trivial|].
  destruct (existsb (key_eqb (key x)) seen).
  - intros H. right. now apply (IH seen).
  - intros [H|H]; [now left | right; now apply (IH (key x :: seen))].
Qed.

Lemma drop_duplicates_from_descending {R K} (value : R -> Qc) (key : R -> K)
    key_eqb rows :
  descending value rows ->
  forall seen, descending value (drop_duplicates_from key key_eqb seen rows).
Proof.
  unfold descending. intros Hs.
  induction Hs as [|x rows Hs IH Hx]; intros seen; simpl; [constructor|].
  destruct (existsb (key_eqb (key x)) seen); [apply IH|].
  constructor; [apply IH|].
  rewrite Forall_forall in *. intros r Hr. apply Hx.
  now apply (drop_duplicates_from_incl key key_eqb rows (key x :: seen)).
Qed.

(** X2. The table loaded is empty exactly when no document brings a record
    (lines 59-60 and 62-66). *)
Theorem X2_lookup_empty_iff_no_record (files : list LookupFile) :
  _load_lookup_data files = [] <-> Spec.source_records files = [].
Proof.
  rewrite LookupFacts.load_lookup_data_rows. split.
  - intros H.
    destruct (Spec.source_records files) as [|r src] eqn:E; [reflexivity|].
    exfalso.
    pose proof (PandasFacts.sort_values_desc_perm lk_card_market_value
                  (map Spec.lookup_row (r :: src))) as Hperm.
    destruct (sort_values_desc lk_card_market_value
                (map Spec.lookup_row (r :: src))) as [|x sorted].
    + apply Permutation_sym, Permutation_nil in Hperm. discriminate.
    + discriminate.
  - intros ->. reflexivity.
Qed.

(** X3. Every row of the table loaded is the row of a record of a source
    document: card_id, set_id, set_name and name as the record has them
    (missing when absent or null) and the value derived from its prices. *)
Theorem X3_lookup_rows_come_from_records
    (files : list LookupFile) (row : LookupRecord) :
  In row (_load_lookup_data files) ->
  exists r,
    In r (Spec.source_records files)
    /\ lk_card_id row = cell_of (j_id r)
    /\ lk_set_id row = cell_of (j_set_id r)
    /\ lk_set_name row = cell_of (j_set_name r)
    /\ lk_name row = cell_of (j_name r)
    /\ lk_card_market_value row = Spec.card_market_value r.
Proof.
  rewrite LookupFacts.load_lookup_data_rows. intros Hin.
  apply drop_duplicates_from_incl in Hin.
  apply (Permutation_in _
           (Permutation_sym
              (PandasFacts.sort_values_desc_perm lk_card_market_value _))) in Hin.
  apply in_map_iff in Hin. destruct Hin as (r & <- & Hr).
  exists r. repeat split. exact Hr.
Qed.

Lemma X3_lookup_rows_come_from_records_witness :
  let files := [Document (Some [Sample.charizard_normal; Sample.charizard])] in
  let row := Spec.lookup_row Sample.charizard in
  In row (_load_lookup_data files)
  /\ exists r,
       In r (Spec.source_records files)
       /\ lk_card_id row = cell_of (j_id r)
       /\ lk_set_id row = cell_of (j_set_id r)
       /\ lk_set_name row = cell_of (j_set_name r)
       /\ lk_name row = cell_of (j_name r)
       /\ lk_card_market_value row = Spec.card_market_value r.
Proof.
  intros files row.
  assert (H : In row (_load_lookup_data files)) by (left; reflexivity).
  split; [exact H|].
  exact (@X3_lookup_rows_come_from_records files row H).
Defined.

(** X4. The table loaded is in descending order of card_market_value. *)
Theorem X4_lookup_table_is_descending (files : list LookupFile) :
  descending lk_card_market_value (_load_lookup_data files).
Proof.
  rewrite LookupFacts.load_lookup_data_rows.
  apply drop_duplicates_from_descending.
  apply PandasFacts.sort_values_desc_descending.
Qed.

End MoreLookupFacts.

Module MoreStrFacts.

Import Str.

Lemma lstrip_fixed s : not_space (first_char s) -> lstrip s = s.
Proof. destruct s as [|c s]; simpl; [trivial|]. now intros ->. Qed.

Lemma rstrip_fixed s : not_space (last_char s) -> rstrip s = s.
Proof.
  induction s as [|c s IH]; simpl; [trivial|].
  destruct s as [|c1 s1].
  - simpl. now intros ->.
  - intros H. rewrite (IH H). reflexivity.
Qed.

(** Trimming a trimmed string changes nothing. *)
Lemma strip_strip s : strip (strip s) = strip s.
Proof.
  destruct (StrFacts.strip_trims s) as (l & r & _ & _ & _ & Hfirst & Hlast).
  unfold strip at 1. rewrite (lstrip_fixed _ Hfirst). now apply rstrip_fixed.
Qed.

End MoreStrFacts.

Module MoreInventoryFacts.

Import Pandas UpdatePortfolio.

(** X5. The inventory loaded from a directory is the inventory of its first
    files followed by that of the rest, and an unreadable file brings
    nothing: rows keep the order in which the files are discovered. *)
Theorem X5_inventory_is_concatenated (before after : list InventoryFile) :
  _load_inventory_data (before ++ after)
  = _load_inventory_data before ++ _load_inventory_data after
  /\ _load_inventory_data (before ++ Unreadable :: after)
     = _load_inventory_data (before ++ after).
Proof.
  rewrite !InventoryFacts.load_inventory_data_rows, !flat_map_app.
  split; reflexivity.
Qed.

(** X6. The inventory loaded has one row per data line of the readable
    tables: nothing is dropped or merged, whatever the card_ids. *)
Theorem X6_inventory_row_count (files : list InventoryFile) :
  length (_load_inventory_data files)
  = list_sum (map MoreSpec.data_lines files).
Proof.
  rewrite InventoryFacts.load_inventory_data_rows.
  induction files as [|[|t] files IH]; simpl; [reflexivity | exact IH |].
  rewrite length_app, IH, InventoryFacts.inventory_frame_rows.
  now rewrite length_map, length_seq.
Qed.

(** X7. In every row loaded, set_id and card_number are trimmed (trimming
    them again changes nothing) and card_id is the row's own set_id, a
    hyphen and its own card_number. *)
Theorem X7_loaded_row_is_consistent
    (files : list InventoryFile) (row : InventoryRecord) :
  In row (_load_inventory_data files) ->
  Str.strip (inv_set_id row) = inv_set_id row
  /\ Str.strip (inv_card_number row) = inv_card_number row
  /\ inv_card_id row
     = String.append (String.append (inv_set_id row) "-") (inv_card_number row).
Proof.
  intros Hin.
  destruct (InventoryFacts.loaded_row_source files row Hin) as (t & i & _ & _ & ->).
  simpl. rewrite !MoreStrFacts.strip_strip. repeat split.
Qed.

Lemma X7_loaded_row_is_consistent_witness :
  let files := [Csv Sample.binder_a] in
  let row := Spec.inventory_row Sample.binder_a 0 in
  In row (_load_inventory_data files)
  /\ Str.strip (inv_set_id row) = inv_set_id row
  /\ Str.strip (inv_card_number row) = inv_card_number row
  /\ inv_card_id row
     = String.append (String.append (inv_set_id row) "-") (inv_card_number row).
Proof.
  intros files row.
  assert (H : In row (_load_inventory_data files)) by (left; reflexivity).
  split; [exact H|].
  exact (@X7_loaded_row_is_consistent files row H).
Defined.

(** X8. A table that lacks a location or name column gives the empty string
    in that column of every row; one that lacks both [card_number] and
    [number] gives card_ids that end with the hyphen. *)
Theorem X8_absent_columns_read_empty (t : InventoryCsv) (row : InventoryRecord) :
  In row (inventory_frame t) ->
  (MoreSpec.lacks t "binder_name" -> inv_binder_name row = EmptyString)
  /\ (MoreSpec.lacks t "page_number" -> inv_page_number row = EmptyString)
  /\ (MoreSpec.lacks t "slot_number" -> inv_slot_number row = EmptyString)
  /\ (MoreSpec.lacks t "card_name" -> MoreSpec.lacks t "name" ->
      inv_card_name row = EmptyString)
  /\ (MoreSpec.lacks t "card_number" -> MoreSpec.lacks t "number" ->
      inv_card_number row = EmptyString
      /\ inv_card_id row = String.append (inv_set_id row) "-").
Proof.
  rewrite InventoryFacts.inventory_frame_rows. intros Hin.
  apply in_map_iff in Hin. destruct Hin as (i & <- & _).
  unfold MoreSpec.lacks, Spec.inventory_row, Spec.source_field_alt,
    Spec.source_field. simpl.
  split; [now intros ->|]. split; [now intros ->|]. split; [now intros ->|].
  split; [now intros -> ->|].
  intros -> ->. split; [reflexivity|]. simpl.
  generalize (Str.strip
    match position (fun h => String.eqb h "set_id") (csv_header t) with
    | Some j => Spec.source_cell t j i
    | None => EmptyString
    end).
  intros s. induction s as [|c s IH]; simpl; [reflexivity | now rewrite IH].
Qed.

Lemma X8_absent_columns_read_empty_witness :
  let row := Spec.inventory_row MoreSample.bare_table 0 in
  In row (inventory_frame MoreSample.bare_table)
  /\ MoreSpec.lacks MoreSample.bare_table "card_number"
  /\ MoreSpec.lacks MoreSample.bare_table "number"
  /\ inv_card_number row = EmptyString
  /\ inv_card_id row = String.append (inv_set_id row) "-".
Proof.
  intros row.
  assert (H : In row (inventory_frame MoreSample.bare_table))
    by (left; reflexivity).
  assert (H1 : MoreSpec.lacks MoreSample.bare_table "card_number") by reflexivity.
  assert (H2 : MoreSpec.lacks MoreSample.bare_table "number") by reflexivity.
  split; [exact H|]. split; [exact H1|]. split; [exact H2|].
  exact (proj2 (proj2 (proj2 (proj2
           (@X8_absent_columns_read_empty MoreSample.bare_table row H)))) H1 H2).
Defined.

End MoreInventoryFacts.

Module MoreMergeFacts.

Import Pandas UpdatePortfolio.

(** What a run writes, on both paths: the ten columns, and one row per
    inventory row. *)
Lemma written_file inventory_dir lookup_dir output_file w :
  Spec.written inventory_dir lookup_dir output_file w
  = Some {| file_header := final_cols;
            file_rows := map (Spec.portfolio_row (_load_lookup_data lookup_dir))
                             (_load_inventory_data inventory_dir) |}.
Proof.
  unfold Spec.written.
  destruct (_load_inventory_data inventory_dir) as [|l inv] eqn:E.
  - rewrite (MergeFacts.update_portfolio_empty _ lookup_dir output_file w E).
    simpl snd. now rewrite MergeFacts.file_at_written.
  - assert (Hne : _load_inventory_data inventory_dir <> []) by congruence.
    rewrite (MergeFacts.update_portfolio_rows _ lookup_dir output_file w Hne).
    simpl snd. now rewrite MergeFacts.file_at_written, E.
Qed.

(** X9. A card of the portfolio whose card_id some lookup record carries is
    valued at the highest derived price among the lookup records of that
    card_id, and takes its set name from a record at that price (the
    sentinel when that record has none). *)
Theorem X9_matched_row_takes_highest_price
    (inventory_dir : list InventoryFile) (lookup_dir : list LookupFile)
    (output_file : string) (w : World) (file : CsvFile) (row : PortfolioRecord)
    (r : CardJson) :
  Spec.written inventory_dir lookup_dir output_file w = Some file ->
  In row (file_rows file) ->
  In r (Spec.source_records lookup_dir) ->
  Spec.source_card_id r = Some (pf_card_id row) ->
  (Spec.card_market_value r <= pf_card_market_value row)%Qc
  /\ exists best,
       In best (Spec.source_records lookup_dir)
       /\ Spec.source_card_id best = Some (pf_card_id row)
       /\ pf_card_market_value row = Spec.card_market_value best
       /\ pf_set_name row = fill "NOT_FOUND"%string (cell_of (j_set_name best)).
Proof.
  rewrite written_file. intros Hfile Hrow Hr Hid.
  injection Hfile as <-. simpl in Hrow.
  apply in_map_iff in Hrow. destruct Hrow as (l & <- & _).
  simpl in Hid.
  destruct (MergeFacts.found_loaded lookup_dir (inv_card_id l))
    as [[Hno _]|(lrow & Hfound & Hsrc & Hk & Hmax)].
  - exfalso. apply (Hno (Spec.lookup_row r)); [now apply in_map | exact Hid].
  - unfold Spec.found in Hfound. unfold Spec.portfolio_row. simpl.
    destruct (Spec.lookup_for (_load_lookup_data lookup_dir) (inv_card_id l))
      as [x|]; [|discriminate].
    simpl in *. injection Hfound as Hsn Hv. rewrite Hsn, Hv.
    split.
    + apply (Hmax (Spec.lookup_row r)); [now apply in_map | exact Hid].
    + apply in_map_iff in Hsrc. destruct Hsrc as (best & <- & Hbest).
      exists best. repeat split; assumption.
Qed.

Lemma X9_matched_row_takes_highest_price_witness :
  let inventory_dir := [Csv Sample.binder_a] in
  let lookup_dir := [Document (Some [Sample.charizard_normal]);
                     Document (Some [Sample.charizard])] in
  let file :=
    {| file_header := final_cols;
       file_rows := map (Spec.portfolio_row (_load_lookup_data lookup_dir))
                        (_load_inventory_data inventory_dir) |} in
  let row := Spec.portfolio_row (_load_lookup_data lookup_dir)
               (Spec.inventory_row Sample.binder_a 0) in
  Spec.written inventory_dir lookup_dir "portfolio.csv" Sample.initial_world
  = Some file
  /\ In row (file_rows file)
  /\ In Sample.charizard_normal (Spec.source_records lookup_dir)
  /\ Spec.source_card_id Sample.charizard_normal = Some (pf_card_id row)
  /\ (Spec.card_market_value Sample.charizard_normal
      <= pf_card_market_value row)%Qc.
Proof.
  intros inventory_dir lookup_dir file row.
  assert (H1 : Spec.written inventory_dir lookup_dir "portfolio.csv"
                 Sample.initial_world = Some file) by reflexivity.
  assert (H2 : In row (file_rows file)) by (left; reflexivity).
  assert (H3 : In Sample.charizard_normal (Spec.source_records lookup_dir))
    by (left; reflexivity).
  assert (H4 : Spec.source_card_id Sample.charizard_normal
               = Some (pf_card_id row)) by reflexivity.
  split; [exact H1|]. split; [exact H2|]. split; [exact H3|]. split; [exact H4|].
  exact (proj1 (@X9_matched_row_takes_highest_price inventory_dir lookup_dir
                  "portfolio.csv" Sample.initial_world file row
                  Sample.charizard_normal H1 H2 H3 H4)).
Defined.

(** X10. With a non-empty inventory the run returns normally, prints the one
    line naming the output path on the output stream and nothing on the
    error stream, and the file it leaves has the ten final columns. *)
Theorem X10_success_path
    (inventory_dir : list InventoryFile) (lookup_dir : list LookupFile)
    (output_file : string) (w : World) :
  _load_inventory_data inventory_dir <> [] ->
  let result := update_portfolio inventory_dir lookup_dir output_file w in
  fst result = Py.Returned tt
  /\ stdout (snd result)
     = stdout w ++ [String.append "Wrote portfolio to " output_file]
  /\ stderr (snd result) = stderr w
  /\ exists file,
       file_at output_file (snd result) = Some file
       /\ file_header file = final_cols.
Proof.
  intros Hne result. unfold result.
  rewrite (MergeFacts.update_portfolio_rows _ lookup_dir output_file w Hne).
  simpl. repeat split. eexists. rewrite MergeFacts.file_at_written.
  split; reflexivity.
Qed.

Lemma X10_success_path_witness :
  let inventory_dir := [Csv Sample.binder_a] in
  let result :=
    update_portfolio inventory_dir [] "portfolio.csv" Sample.initial_world in
  _load_inventory_data inventory_dir <> []
  /\ fst result = Py.Returned tt
  /\ stdout (snd result) = ["Wrote portfolio to portfolio.csv"%string]
  /\ stderr (snd result) = []
  /\ exists file,
       file_at "portfolio.csv" (snd result) = Some file
       /\ file_header file = final_cols.
Proof.
  intros inventory_dir result.
  assert (Hne : _load_inventory_data inventory_dir <> [])
    by (vm_compute; discriminate).
  split; [exact Hne|].
  exact (@X10_success_path inventory_dir [] "portfolio.csv"
           Sample.initial_world Hne).
Defined.

(** The files after a run, on both paths: the new file before the others. *)
Lemma update_portfolio_disk inventory_dir lookup_dir output_file w :
  disk (snd (update_portfolio inventory_dir lookup_dir output_file w))
  = (output_file,
     {| file_header := final_cols;
        file_rows := map (Spec.portfolio_row (_load_lookup_data lookup_dir))
                         (_load_inventory_data inventory_dir) |}) :: disk w.
Proof.
  destruct (_load_inventory_data inventory_dir) as [|l inv] eqn:E.
  - now rewrite (MergeFacts.update_portfolio_empty _ lookup_dir output_file w E).
  - assert (H : _load_inventory_data inventory_dir <> []) by congruence.
    rewrite (MergeFacts.update_portfolio_rows _ lookup_dir output_file w H).
    now rewrite E.
Qed.

(** X11. On both paths a run makes one write, at the output path it was
    given: a file with the ten final columns and one row per inventory row,
    put before the files written earlier, which stay as they were. *)
Theorem X11_one_write_at_the_output_path
    (inventory_dir : list InventoryFile) (lookup_dir : list LookupFile)
    (output_file : string) (w : World) :
  exists file,
    disk (snd (update_portfolio inventory_dir lookup_dir output_file w))
    = (output_file, file) :: disk w
    /\ file_header file = final_cols
    /\ length (file_rows file) = length (_load_inventory_data inventory_dir).
Proof.
  rewrite update_portfolio_disk. eexists.
  split; [reflexivity|]. split; [reflexivity|]. apply length_map.
Qed.

(** X12. Rows of the portfolio that share a card_id (copies of one card)
    carry the same set name and the same value. *)
Theorem X12_copies_are_valued_alike
    (inventory_dir : list InventoryFile) (lookup_dir : list LookupFile)
    (output_file : string) (w : World) (file : CsvFile)
    (row1 row2 : PortfolioRecord) :
  Spec.written inventory_dir lookup_dir output_file w = Some file ->
  In row1 (file_rows file) -> In row2 (file_rows file) ->
  pf_card_id row1 = pf_card_id row2 ->
  pf_set_name row1 = pf_set_name row2
  /\ pf_card_market_value row1 = pf_card_market_value row2.
Proof.
  rewrite written_file. intros Hfile H1 H2 Hid.
  injection Hfile as <-. simpl in H1, H2.
  apply in_map_iff in H1. destruct H1 as (l1 & <- & _).
  apply in_map_iff in H2. destruct H2 as (l2 & <- & _).
  unfold Spec.portfolio_row in *. simpl in *. rewrite Hid. split; reflexivity.
Qed.

Lemma X12_copies_are_valued_alike_witness :
  let inventory_dir := [Csv MoreSample.two_copies] in
  let lookup_dir := Sample.two_sources in
  let file :=
    {| file_header := final_cols;
       file_rows := map (Spec.portfolio_row (_load_lookup_data lookup_dir))
                        (_load_inventory_data inventory_dir) |} in
  let row1 := Spec.portfolio_row (_load_lookup_data lookup_dir)
                (Spec.inventory_row MoreSample.two_copies 0) in
  let row2 := Spec.portfolio_row (_load_lookup_data lookup_dir)
                (Spec.inventory_row MoreSample.two_copies 1) in
  Spec.written inventory_dir lookup_dir "portfolio.csv" Sample.initial_world
  = Some file
  /\ In row1 (file_rows file) /\ In row2 (file_rows file)
  /\ pf_card_id row1 = pf_card_id row2
  /\ pf_index row1 <> pf_index row2
  /\ pf_set_name row1 = pf_set_name row2
  /\ pf_card_market_value row1 = pf_card_market_value row2.
Proof.
  intros inventory_dir lookup_dir file row1 row2.
  assert (H1 : Spec.written inventory_dir lookup_dir "portfolio.csv"
                 Sample.initial_world = Some file) by reflexivity.
  assert (H2 : In row1 (file_rows file)) by (left; reflexivity).
  assert (H3 : In row2 (file_rows file)) by (right; left; reflexivity).
  assert (H4 : pf_card_id row1 = pf_card_id row2) by reflexivity.
  split; [exact H1|]. split; [exact H2|]. split; [exact H3|]. split; [exact H4|].
  split; [discriminate|].
  exact (@X12_copies_are_valued_alike inventory_dir lookup_dir "portfolio.csv"
           Sample.initial_world file row1 row2 H1 H2 H3 H4).
Defined.

(** X13. When no lookup document brings a record (the directory is empty,
    or every file is passed over), every row of the portfolio has set_name
    "NOT_FOUND" and card_market_value 0.0. *)
Theorem X13_no_lookup_data_gives_sentinels
    (inventory_dir : list InventoryFile) (lookup_dir : list LookupFile)
    (output_file : string) (w : World) (file : CsvFile) (row : PortfolioRecord) :
  Spec.source_records lookup_dir = [] ->
  Spec.written inventory_dir lookup_dir output_file w = Some file ->
  In row (file_rows file) ->
  pf_set_name row = "NOT_FOUND"%string /\ pf_card_market_value row = Q2Qc 0.
Proof.
  intros Hsrc. rewrite written_file. intros Hfile Hrow.
  injection Hfile as <-. simpl in Hrow.
  apply in_map_iff in Hrow. destruct Hrow as (l & <- & _).
  rewrite LookupFacts.load_lookup_data_rows, Hsrc. split; reflexivity.
Qed.

Lemma X13_no_lookup_data_gives_sentinels_witness :
  let inventory_dir := [Csv Sample.binder_a] in
  let lookup_dir := [Unparseable; Document None; Document (Some [])] in
  let file :=
    {| file_header := final_cols;
       file_rows := map (Spec.portfolio_row (_load_lookup_data lookup_dir))
                        (_load_inventory_data inventory_dir) |} in
  let row := Spec.portfolio_row (_load_lookup_data lookup_dir)
               (Spec.inventory_row Sample.binder_a 0) in
  Spec.source_records lookup_dir = []
  /\ Spec.written inventory_dir lookup_dir "portfolio.csv" Sample.initial_world
     = Some file
  /\ In row (file_rows file)
  /\ pf_set_name row = "NOT_FOUND"%string
  /\ pf_card_market_value row = Q2Qc 0.
Proof.
  intros inventory_dir lookup_dir file row.
  assert (H0 : Spec.source_records lookup_dir = []) by reflexivity.
  assert (H1 : Spec.written inventory_dir lookup_dir "portfolio.csv"
                 Sample.initial_world = Some file) by reflexivity.
  assert (H2 : In row (file_rows file)) by (left; reflexivity).
  split; [exact H0|]. split; [exact H1|]. split; [exact H2|].
  exact (@X13_no_lookup_data_gives_sentinels inventory_dir lookup_dir
           "portfolio.csv" Sample.initial_world file row H0 H1 H2).
Defined.

(** X14. A production run leaves at [card_portfolio.csv] a file with one
    row per row of the production inventory and does not touch
    [test_card_portfolio.csv]; a test run does not touch
    [card_portfolio.csv]. *)
Theorem X14_production_and_test_runs_are_apart
    (dirs : UpdatePortfolioEntry.Directories) (w : World) :
  (exists file,
     file_at "card_portfolio.csv" (snd (UpdatePortfolioEntry.main dirs w))
     = Some file
     /\ file_header file = final_cols
     /\ length (file_rows file)
        = length (_load_inventory_data
                    (UpdatePortfolioEntry.csv_files dirs "./card_inventory/")))
  /\ file_at "test_card_portfolio.csv" (snd (UpdatePortfolioEntry.main dirs w))
     = file_at "test_card_portfolio.csv" w
  /\ file_at "card_portfolio.csv" (snd (UpdatePortfolioEntry.test dirs w))
     = file_at "card_portfolio.csv" w.
Proof.
  unfold UpdatePortfolioEntry.main, UpdatePortfolioEntry.test, file_at.
  rewrite !update_portfolio_disk. simpl find.
  split; [|split; reflexivity].
  eexists. split; [reflexivity|]. split; [reflexivity|]. apply length_map.
Qed.

End MoreMergeFacts.

Module MoreSummaryFacts.

Import GenerateSummary SummarySpec.

(** The row the scan settles on, when some cell has a value. *)
Lemma most_valuable_row (df : Table) :
  (exists j v0, nth_error (map r_card_market_value (rows df)) j = Some (Some v0)) ->
  exists i v r,
    argmax_from 0 None (map r_card_market_value (rows df)) = Some (i, v)
    /\ first_max (map r_card_market_value (rows df)) i v
    /\ nth_error (rows df) i = Some r.
Proof.
  intros (j & v0 & Hj).
  pose proof (SummaryFacts.argmax_best (map r_card_market_value (rows df))) as Hbest.
  destruct (argmax_from 0 None (map r_card_market_value (rows df)))
    as [[i v]|]; simpl in Hbest.
  - pose proof Hbest as (Hat & _). rewrite nth_error_map in Hat.
    destruct (nth_error (rows df) i) as [r|] eqn:Er; [|discriminate].
    exists i, v, r. split; [reflexivity|]. split; [exact Hbest | exact Er].
  - exfalso. exact (Hbest j v0 Hj).
Qed.

(** X15. On a table with rows and values but no [card_name] column the call
    raises KeyError('card_name') after it has printed the total and the
    heading of the most valuable card; nothing goes to the error stream. *)
Theorem X15_missing_card_name_raises
    (column_sum : list (option Qc) -> Qc)
    (portfolio_file : string) (df : Table) (w : Console) :
  empty df = false ->
  has_column "card_market_value" df = true ->
  has_column "card_name" df = false ->
  (exists j v0, nth_error (map r_card_market_value (rows df)) j = Some (Some v0)) ->
  let result := generate_summary column_sum portfolio_file (Parsed df) w in
  fst result = Py.Raised (Py.KeyError "card_name")
  /\ stdout (snd result)
     = stdout w
       ++ MoreSpec.report_head portfolio_file
            (column_sum (map r_card_market_value (rows df)))
  /\ stderr (snd result) = stderr w.
Proof.
  intros He Hv Hn Hsome result. unfold result.
  destruct (most_valuable_row df Hsome) as (i & v & r & Hmax & _ & Hr).
  unfold generate_summary, most_valuable, getitem.
  rewrite He, Hv, Hn, Hmax, Hr.
  unfold Py.bind, print, print_stderr, Py.ret, Py.raise. simpl.
  rewrite <- !app_assoc. repeat split.
Qed.

Lemma X15_missing_card_name_raises_witness :
  let result :=
    generate_summary series_sum "portfolio.csv" (Parsed Sample.no_name_column)
                     Sample.console0 in
  empty Sample.no_name_column = false
  /\ has_column "card_market_value" Sample.no_name_column = true
  /\ has_column "card_name" Sample.no_name_column = false
  /\ fst result = Py.Raised (Py.KeyError "card_name")
  /\ stdout (snd result)
     = MoreSpec.report_head "portfolio.csv"
         (series_sum (map r_card_market_value (rows Sample.no_name_column)))
  /\ stderr (snd result) = [].
Proof.
  intros result.
  assert (H1 : empty Sample.no_name_column = false) by reflexivity.
  assert (H2 : has_column "card_market_value" Sample.no_name_column = true)
    by reflexivity.
  assert (H3 : has_column "card_name" Sample.no_name_column = false)
    by reflexivity.
  assert (H4 : exists j v0,
             nth_error (map r_card_market_value (rows Sample.no_name_column)) j
             = Some (Some v0))
    by (exists 0, (Sample.price 1000); reflexivity).
  split; [exact H1|]. split; [exact H2|]. split; [exact H3|].
  exact (@X15_missing_card_name_raises series_sum "portfolio.csv"
           Sample.no_name_column
           Sample.console0 H1 H2 H3 H4).
Defined.

(** X16. On a table with rows, values and a [card_name] column but no
    [card_id] column the call raises KeyError('card_id') after it has
    printed the name of the card at the first position of the maximum. *)
Theorem X16_missing_card_id_raises
    (column_sum : list (option Qc) -> Qc)
    (portfolio_file : string) (df : Table) (w : Console) :
  empty df = false ->
  has_column "card_market_value" df = true ->
  has_column "card_name" df = true ->
  has_column "card_id" df = false ->
  (exists j v0, nth_error (map r_card_market_value (rows df)) j = Some (Some v0)) ->
  let result := generate_summary column_sum portfolio_file (Parsed df) w in
  exists i v r,
    first_max (map r_card_market_value (rows df)) i v
    /\ nth_error (rows df) i = Some r
    /\ fst result = Py.Raised (Py.KeyError "card_id")
    /\ stdout (snd result)
       = stdout w
         ++ MoreSpec.report_head portfolio_file
              (column_sum (map r_card_market_value (rows df)))
         ++ [Field "Name:  " (r_card_name r)]
    /\ stderr (snd result) = stderr w.
Proof.
  intros He Hv Hn Hi Hsome result. unfold result.
  destruct (most_valuable_row df Hsome) as (i & v & r & Hmax & Hfirst & Hr).
  exists i, v, r. split; [exact Hfirst|]. split; [exact Hr|].
  unfold generate_summary, most_valuable, getitem.
  rewrite He, Hv, Hn, Hi, Hmax, Hr.
  unfold Py.bind, print, print_stderr, Py.ret, Py.raise. simpl.
  rewrite <- !app_assoc. repeat split.
Qed.

Lemma X16_missing_card_id_raises_witness :
  let result :=
    generate_summary series_sum "portfolio.csv"
                     (Parsed MoreSample.no_id_column) Sample.console0 in
  empty MoreSample.no_id_column = false
  /\ has_column "card_market_value" MoreSample.no_id_column = true
  /\ has_column "card_name" MoreSample.no_id_column = true
  /\ has_column "card_id" MoreSample.no_id_column = false
  /\ exists i v r,
       first_max (map r_card_market_value (rows MoreSample.no_id_column)) i v
       /\ nth_error (rows MoreSample.no_id_column) i = Some r
       /\ fst result = Py.Raised (Py.KeyError "card_id")
       /\ stdout (snd result)
          = [] ++ MoreSpec.report_head "portfolio.csv"
                    (series_sum
                       (map r_card_market_value (rows MoreSample.no_id_column)))
               ++ [Field "Name:  " (r_card_name r)]
       /\ stderr (snd result) = [].
Proof.
  intros result.
  assert (H1 : empty MoreSample.no_id_column = false) by reflexivity.
  assert (H2 : has_column "card_market_value" MoreSample.no_id_column = true)
    by reflexivity.
  assert (H3 : has_column "card_name" MoreSample.no_id_column = true)
    by reflexivity.
  assert (H4 : has_column "card_id" MoreSample.no_id_column = false)
    by reflexivity.
  assert (H5 : exists j v0,
             nth_error (map r_card_market_value (rows MoreSample.no_id_column)) j
             = Some (Some v0))
    by (exists 0, (Sample.price 1000); reflexivity).
  split; [exact H1|]. split; [exact H2|]. split; [exact H3|]. split; [exact H4|].
  exact (@X16_missing_card_id_raises series_sum "portfolio.csv"
           MoreSample.no_id_column
           Sample.console0 H1 H2 H3 H4 H5).
Defined.

(** X17. On a table with rows and a [card_market_value] column in which no
    cell has a value the call raises before it prints anything. *)
Theorem X17_no_value_raises_before_printing
    (column_sum : list (option Qc) -> Qc)
    (portfolio_file : string) (df : Table) (w : Console) :
  empty df = false ->
  has_column "card_market_value" df = true ->
  all_missing (map r_card_market_value (rows df)) ->
  let result := generate_summary column_sum portfolio_file (Parsed df) w in
  (exists e, fst result = Py.Raised e)
  /\ stdout (snd result) = stdout w.
Proof.
  intros He Hv Hmiss result. unfold result.
  pose proof (SummaryFacts.argmax_best (map r_card_market_value (rows df))) as Hbest.
  destruct (argmax_from 0 None (map r_card_market_value (rows df)))
    as [[i v]|] eqn:Emax; simpl in Hbest.
  - exfalso. destruct Hbest as (Hat & _). exact (Hmiss i v Hat).
  - unfold generate_summary, most_valuable. rewrite He, Hv, Emax.
    unfold Py.bind, Py.ret, Py.raise. simpl. split; [eexists|]; reflexivity.
Qed.

Lemma X17_no_value_raises_before_printing_witness :
  let result :=
    generate_summary series_sum "portfolio.csv" (Parsed Sample.no_values)
                     Sample.console0 in
  empty Sample.no_values = false
  /\ has_column "card_market_value" Sample.no_values = true
  /\ all_missing (map r_card_market_value (rows Sample.no_values))
  /\ (exists e, fst result = Py.Raised e)
  /\ stdout (snd result) = [].
Proof.
  intros result.
  assert (H1 : empty Sample.no_values = false) by reflexivity.
  assert (H2 : has_column "card_market_value" Sample.no_values = true)
    by reflexivity.
  assert (H3 : all_missing (map r_card_market_value (rows Sample.no_values))).
  { intros [|[|j]] v; simpl; discriminate. }
  split; [exact H1|]. split; [exact H2|]. split; [exact H3|].
  exact (@X17_no_value_raises_before_printing series_sum "portfolio.csv"
           Sample.no_values
           Sample.console0 H1 H2 H3).
Defined.

End MoreSummaryFacts.

Module PipelineFacts.

Import UpdatePortfolio GenerateSummary Pipeline.

(** A production run, on both paths. *)
Lemma main_run dirs (w : World) :
  UpdatePortfolioEntry.main dirs w
  = (Py.Returned tt,
     {| UpdatePortfolio.stdout :=
          UpdatePortfolio.stdout w ++ fst (MoreSpec.production_prints dirs);
        UpdatePortfolio.stderr :=
          UpdatePortfolio.stderr w ++ snd (MoreSpec.production_prints dirs);
        disk := ("card_portfolio.csv"%string, MoreSpec.production_file dirs)
                  :: disk w |}).
Proof.
  unfold UpdatePortfolioEntry.main, MoreSpec.production_prints,
    MoreSpec.production_file.
  destruct (_load_inventory_data
              (UpdatePortfolioEntry.csv_files dirs "./card_inventory/"))
    as [|l inv] eqn:E.
  - rewrite (MergeFacts.update_portfolio_empty _ _ _ _ E). simpl.
    now rewrite app_nil_r.
  - assert (H : _load_inventory_data
                  (UpdatePortfolioEntry.csv_files dirs "./card_inventory/") <> [])
      by congruence.
    rewrite (MergeFacts.update_portfolio_rows _ _ _ _ H). rewrite E. simpl.
    now rewrite app_nil_r.
Qed.

Section Reading.
Variable read_csv : CsvFile -> string + Table.
Variable column_sum : list (option Qc) -> Qc.

(** The pipeline as one report on the file just written: it ends as the
    report ends, and closes with its last line when the report returns. *)
Lemma pipeline_run dirs (st : State) :
  let report :=
    generate_summary column_sum "card_portfolio.csv"
      (MoreSpec.read_back read_csv (MoreSpec.production_file dirs))
      (MoreSpec.before_report dirs (console st)) in
  let written :=
    ("card_portfolio.csv"%string, MoreSpec.production_file dirs) :: files st in
  run_production_pipeline read_csv column_sum dirs st
  = match fst report with
    | Py.Returned _ =>
        (Py.Returned tt,
         {| console :=
              {| stdout := stdout (snd report);
                 stderr := stderr (snd report) ++ [MoreSpec.complete] |};
            files := written |})
    | Py.Exited n => (Py.Exited n, {| console := snd report; files := written |})
    | Py.Raised e => (Py.Raised e, {| console := snd report; files := written |})
    end.
Proof.
  intros report written. subst report written.
  unfold run_production_pipeline, Py.bind, print_stderr, run_etl, run_summary,
    GenerateSummaryEntry.main, on_disk.
  simpl. rewrite main_run. simpl.
  unfold MoreSpec.before_report, MoreSpec.read_back, MoreSpec.starting,
    MoreSpec.step_1, MoreSpec.step_2, MoreSpec.complete.
  rewrite <- !app_assoc. simpl.
  destruct (generate_summary _ _ _ _) as [[[]|n|e] c]; reflexivity.
Qed.

(** X18. The whole pipeline on an empty production inventory: the ETL step
    writes the header-only file, the report step reads it back as a table
    without rows, prints the no-data line, and the pipeline returns after
    its closing line; the error stream holds the narration and the
    empty-inventory diagnostic. *)
Theorem X18_pipeline_on_empty_inventory
    (dirs : UpdatePortfolioEntry.Directories) (st : State) (df : Table) :
  _load_inventory_data (UpdatePortfolioEntry.csv_files dirs "./card_inventory/")
  = [] ->
  read_csv {| file_header := final_cols; file_rows := [] |} = inr df ->
  rows df = [] ->
  let result := run_production_pipeline read_csv column_sum dirs st in
  fst result = Py.Returned tt
  /\ stdout (console (snd result))
     = stdout (console st) ++ [SummarySpec.no_data_message "card_portfolio.csv"]
  /\ stderr (console (snd result))
     = stderr (console st)
       ++ [MoreSpec.starting; MoreSpec.step_1;
           Plain Spec.empty_inventory_message;
           MoreSpec.step_2; MoreSpec.complete].
Proof.
  intros Hinv Hread Hrows result. unfold result. rewrite pipeline_run.
  unfold MoreSpec.read_back, MoreSpec.production_file,
    MoreSpec.before_report, MoreSpec.production_prints.
  rewrite Hinv. simpl map. rewrite Hread.
  rewrite (SummaryFacts.summary_no_data column_sum "card_portfolio.csv" df)
    by (unfold empty; now rewrite Hrows).
  simpl. rewrite app_nil_r, <- !app_assoc. repeat split.
Qed.

(** X19. The report of the pipeline is computed from the file its ETL step
    has just written: whatever files were there before, at the same path or
    elsewhere, the outcome and the two streams are the same, and the
    closing line is printed exactly when the report step returns. *)
Theorem X19_pipeline_reports_on_the_new_file
    (dirs : UpdatePortfolioEntry.Directories) (st : State)
    (earlier : list (string * CsvFile)) :
  let result := run_production_pipeline read_csv column_sum dirs st in
  let report :=
    generate_summary column_sum "card_portfolio.csv"
      (MoreSpec.read_back read_csv (MoreSpec.production_file dirs))
      (MoreSpec.before_report dirs (console st)) in
  fst (run_production_pipeline read_csv column_sum dirs (MoreSpec.with_files st earlier))
  = fst result
  /\ console (snd (run_production_pipeline read_csv column_sum dirs
                     (MoreSpec.with_files st earlier)))
     = console (snd result)
  /\ stdout (console (snd result)) = stdout (snd report)
  /\ (fst report = Py.Returned tt ->
      fst result = Py.Returned tt
      /\ stderr (console (snd result)) = stderr (snd report) ++ [MoreSpec.complete])
  /\ (fst report <> Py.Returned tt ->
      fst result = fst report
      /\ stderr (console (snd result)) = stderr (snd report)).
Proof.
  intros result report. subst result.
  rewrite !pipeline_run. unfold MoreSpec.with_files. simpl console.
  fold report.
  destruct (fst report) as [[]|n|e] eqn:E; simpl; repeat split;
    try discriminate; try congruence; intros H; try discriminate;
    try (exfalso; now apply H); repeat split.
Qed.

End Reading.

Lemma X18_pipeline_on_empty_inventory_witness :
  let dirs := MoreSample.no_inventory in
  let df := {| columns := final_cols; rows := [] |} in
  let result :=
    run_production_pipeline MoreSample.sample_read_csv series_sum dirs
                            MoreSample.state0 in
  _load_inventory_data (UpdatePortfolioEntry.csv_files dirs "./card_inventory/")
  = []
  /\ MoreSample.sample_read_csv {| file_header := final_cols; file_rows := [] |}
     = inr df
  /\ rows df = []
  /\ fst result = Py.Returned tt
  /\ stdout (console (snd result))
     = [] ++ [SummarySpec.no_data_message "card_portfolio.csv"]
  /\ stderr (console (snd result))
     = [] ++ [MoreSpec.starting; MoreSpec.step_1;
              Plain Spec.empty_inventory_message;
              MoreSpec.step_2; MoreSpec.complete].
Proof.
  intros dirs df result.
  assert (H1 : _load_inventory_data
                 (UpdatePortfolioEntry.csv_files dirs "./card_inventory/") = [])
    by reflexivity.
  assert (H2 : MoreSample.sample_read_csv
                 {| file_header := final_cols; file_rows := [] |} = inr df)
    by reflexivity.
  assert (H3 : rows df = []) by reflexivity.
  split; [exact H1|]. split; [exact H2|]. split; [exact H3|].
  exact (@X18_pipeline_on_empty_inventory MoreSample.sample_read_csv series_sum
           dirs MoreSample.state0 df H1 H2 H3).
Defined.

End PipelineFacts.
